(** * lifetime-reservation: the temporal planner, the matcher, the schedule
      URL builder and the reservation flow of [src/utils.js] and of the
      main script, embedded and verified.

    Layout
    - [ESDate]   : the ECMAScript time-value arithmetic behind the [Date]
                   methods the planner calls, and the planner itself.
    - [Text]     : [String.prototype.includes], [cardMatches],
                   [URLSearchParams] and [buildScheduleUrl].
    - [Flow]     : the surface (browser, clock, console) as an environment
                   that answers each call from the history of calls, the
                   state-and-exception monad of the asynchronous code,
                   [clickReserveAndFinish], [run] and the top level.
    - [Demo]     : concrete constants and surfaces to run the flow on.
    - [Rest]     : [withinWindow], the stages of [run] and the vocabulary
                   of the further properties.
    Theorems come after all definitions. *)

From Stdlib Require Import ZArith List String Ascii Lia Bool Permutation.
From Stdlib Require Import DecimalString.
Import ListNotations.
Open Scope Z_scope.

(* ================================================================== *)
(** ** ECMAScript dates *)
(* ================================================================== *)

Module ESDate.

(** A [Date] object is modelled by its time value: milliseconds since the
    epoch, an unbounded integer (the TimeClip range of +-8.64e15 ms and the
    Invalid Date are not modelled). Mutating methods return the new value. *)
Definition Date := Z.

Definition msPerSecond : Z := 1000.
Definition msPerMinute : Z := 60000.
Definition msPerHour : Z := 3600000.
Definition msPerDay : Z := 86400000.

(** ECMA-262, "Day Number and Time within Day". *)
Definition Day (t : Z) : Z := t / msPerDay.
Definition TimeWithinDay (t : Z) : Z := t mod msPerDay.

(** ECMA-262, "Year Number". *)
Definition DayFromYear (y : Z) : Z :=
  365 * (y - 1970) + (y - 1969) / 4 - (y - 1901) / 100 + (y - 1601) / 400.

Definition DaysInYear (y : Z) : Z :=
  if negb (y mod 4 =? 0) then 365
  else if negb (y mod 100 =? 0) then 366
  else if negb (y mod 400 =? 0) then 365
  else 366.

(** The largest [y] with [DayFromYear y <= Day t]: a first guess from the
    mean year length of 146097/400 days, corrected by at most one. *)
Definition YearFromTime (t : Z) : Z :=
  let d := Day t in
  let y := 1970 + (400 * d) / 146097 in
  if d <? DayFromYear y then y - 1
  else if DayFromYear (y + 1) <=? d then y + 1
  else y.

Definition InLeapYear (t : Z) : bool := DaysInYear (YearFromTime t) =? 366.

Definition DayWithinYear (t : Z) : Z := Day t - DayFromYear (YearFromTime t).

(** Day within the year on which month [m] (0..11) starts. *)
Definition monthStart (leap : bool) (m : Z) : Z :=
  let l := if leap then 1 else 0 in
  if m <=? 0 then 0
  else if m =? 1 then 31
  else if m =? 2 then 59 + l
  else if m =? 3 then 90 + l
  else if m =? 4 then 120 + l
  else if m =? 5 then 151 + l
  else if m =? 6 then 181 + l
  else if m =? 7 then 212 + l
  else if m =? 8 then 243 + l
  else if m =? 9 then 273 + l
  else if m =? 10 then 304 + l
  else 334 + l.

(** ECMA-262, "Month Number". *)
Definition MonthFromTime (t : Z) : Z :=
  let leap := InLeapYear t in
  let d := DayWithinYear t in
  if d <? monthStart leap 1 then 0
  else if d <? monthStart leap 2 then 1
  else if d <? monthStart leap 3 then 2
  else if d <? monthStart leap 4 then 3
  else if d <? monthStart leap 5 then 4
  else if d <? monthStart leap 6 then 5
  else if d <? monthStart leap 7 then 6
  else if d <? monthStart leap 8 then 7
  else if d <? monthStart leap 9 then 8
  else if d <? monthStart leap 10 then 9
  else if d <? monthStart leap 11 then 10
  else 11.

(** ECMA-262, "Date Number". *)
Definition DateFromTime (t : Z) : Z :=
  DayWithinYear t - monthStart (InLeapYear t) (MonthFromTime t) + 1.

(** ECMA-262, "Week Day": 0 is Sunday; 1970-01-01 was a Thursday. *)
Definition WeekDay (t : Z) : Z := (Day t + 4) mod 7.

Definition HourFromTime (t : Z) : Z := (t / msPerHour) mod 24.
Definition MinFromTime (t : Z) : Z := (t / msPerMinute) mod 60.
Definition SecFromTime (t : Z) : Z := (t / msPerSecond) mod 60.
Definition msFromTime (t : Z) : Z := t mod msPerSecond.

(** ECMA-262, MakeTime, MakeDay (for an integral year, month and date) and
    MakeDate. *)
Definition MakeTime (hour min sec ms : Z) : Z :=
  hour * msPerHour + min * msPerMinute + sec * msPerSecond + ms.

Definition MakeDay (year month date : Z) : Z :=
  let ym := year + month / 12 in
  let mn := month mod 12 in
  DayFromYear ym + monthStart (DaysInYear ym =? 366) mn + date - 1.

Definition MakeDate (day time : Z) : Z := day * msPerDay + time.

(** The host's time zone: the offset from UTC, in milliseconds, in force
    before the first transition, and the transitions, oldest first, each
    with the instant it takes effect at and the offset from then on. A zone
    without daylight saving has no transition. *)
Record Zone : Type := {
  base_offset : Z;
  transitions : list (Z * Z)
}.

Definition fixed (offset : Z) : Zone :=
  {| base_offset := offset; transitions := [] |}.

(** The offset in force at the instant [t], with [o] in force before the
    transitions [trs]. *)
Fixpoint offset_from (o : Z) (trs : list (Z * Z)) (t : Z) : Z :=
  match trs with
  | [] => o
  | (T, o') :: rest => if t <? T then o else offset_from o' rest t
  end.

(** The instant a local time [tl] stands for. A local time that occurs
    twice (clocks set back) stands for its first occurrence; one that is
    skipped (clocks set forward) is read with the offset in force before
    the transition, which lands after the gap. *)
Fixpoint resolve_from (o : Z) (trs : list (Z * Z)) (tl : Z) : Z :=
  match trs with
  | [] => tl - o
  | (T, o') :: rest =>
      if tl - o <? T then tl - o
      else if tl - o' <? T then tl - o
      else resolve_from o' rest tl
  end.

Section LocalZone.

Variable zone : Zone.

(** ECMA-262 LocalTime(t) and UTC(t). *)
Definition LocalTime (t : Z) : Z :=
  t + offset_from (base_offset zone) (transitions zone) t.
Definition UTC (t : Z) : Z :=
  resolve_from (base_offset zone) (transitions zone) t.

(** [Date.prototype] methods used by the planner. *)
Definition getTime (d : Date) : Z := d.
Definition getFullYear (d : Date) : Z := YearFromTime (LocalTime d).
Definition getMonth (d : Date) : Z := MonthFromTime (LocalTime d).
Definition getDate (d : Date) : Z := DateFromTime (LocalTime d).
Definition getDay (d : Date) : Z := WeekDay (LocalTime d).

Definition setDate (d : Date) (dt : Z) : Date :=
  let t := LocalTime d in
  UTC (MakeDate (MakeDay (YearFromTime t) (MonthFromTime t) dt)
                (TimeWithinDay t)).

Definition setHours (d : Date) (hour min sec ms : Z) : Date :=
  let t := LocalTime d in
  UTC (MakeDate (Day t) (MakeTime hour min sec ms)).

(** utils.js:11 [msUntilDateTime(targetDate, nowMs)] *)
Definition msUntilDateTime (targetDate : Date) (nowMs : Z) : Z :=
  getTime targetDate - nowMs.

(** utils.js:25 [nextWeekdayOnOrAfter]; [%] is the truncating remainder. *)
Definition nextWeekdayOnOrAfter (baseDate : Date) (weekday : Z) : Date :=
  let date := baseDate in
  let diff := Z.rem (weekday - getDay date + 7) 7 in
  setDate date (getDate date + diff).

(** utils.js:37 [computeTargetClassDate] *)
Definition computeTargetClassDate (targetWeekday : Z) (now : Date) : Date :=
  let base := now in
  let base := setDate base (getDate base + 7) in
  nextWeekdayOnOrAfter base targetWeekday.

(** utils.js:43 [computeOpenTimeForClass] *)
Definition computeOpenTimeForClass (classDate : Date) (hour minute second : Z)
  : Date :=
  let openAt := classDate in
  let openAt := setDate openAt (getDate openAt - 8) in
  setHours openAt hour minute second 0.

(** The calendar day (days since the epoch, local time) a date falls on,
    and the instant at which that day starts. *)
Definition localDay (d : Date) : Z := Day (LocalTime d).
Definition startOfLocalDay (d : Date) : Date :=
  UTC (MakeDate (localDay d) 0).

End LocalZone.

(** *** Properties of a time zone *)

Definition offsets (z : Zone) : list Z :=
  base_offset z :: map snd (transitions z).

(** The offsets of the zone differ by less than a day. *)
Definition day_spread (z : Zone) : Prop :=
  forall o1 o2, In o1 (offsets z) -> In o2 (offsets z) -> o1 - o2 < msPerDay.

(** Reading a local time keeps its calendar day: no transition moves a
    skipped time into the next day or skips a day. *)
Definition keeps_day (z : Zone) : Prop :=
  forall tl, Day (LocalTime z (UTC z tl)) = Day tl.

(** The local time of an instant stands for an instant with that local
    time, the first one. *)
Definition resolves_back (z : Zone) : Prop :=
  forall t, UTC z (LocalTime z t) <= t /\
            LocalTime z (UTC z (LocalTime z t)) = LocalTime z t.

(** Reading the local time of a resolved instant gives that instant. *)
Definition settled (z : Zone) : Prop :=
  forall tl, UTC z (LocalTime z (UTC z tl)) = UTC z tl.

(** A local time that occurs: some instant has it as its local time. The
    local times that a transition skips do not occur. *)
Definition occurs (z : Zone) (tl : Z) : Prop := exists t, LocalTime z t = tl.

End ESDate.


(* ================================================================== *)
(** ** Strings, the card matcher and the schedule URL *)
(* ================================================================== *)

Module Text.

Local Open Scope string_scope.

(** JavaScript strings are modelled as [string]: sequences of code units,
    read as UTF-8 bytes where they are serialised into a URL. *)

(** [String.prototype.startsWith]-style test: [s] is a prefix of [text]. *)
Fixpoint startsWith (text s : string) {struct s} : bool :=
  match s, text with
  | EmptyString, _ => true
  | String c s', String d text' => Ascii.eqb c d && startsWith text' s'
  | String _ _, EmptyString => false
  end.

(** [text.includes(s)]: [s] occurs in [text] at some position. *)
Fixpoint includes (text s : string) : bool :=
  startsWith text s ||
  match text with
  | EmptyString => false
  | String _ text' => includes text' s
  end.

(** [s] is a substring of [text]: [text] is [s] between two strings. *)
Definition occurs_in (s text : string) : Prop :=
  exists before after, text = before ++ s ++ after.

(** [Array.prototype.every] *)
Definition every {A : Type} (p : A -> bool) (l : list A) : bool := forallb p l.

(** utils.js:78 [cardMatches] *)
Definition cardMatches (cardText : string) (mustInclude : list string) : bool :=
  every (fun s => includes cardText s) mustInclude.

(** *** [URLSearchParams] *)

Definition URLSearchParams := list (string * string).

(** [params.set(name, value)]: the first pair named [name] takes the value
    and the later ones are removed; without such a pair, one is appended. *)
Fixpoint remove_name (name : string) (l : URLSearchParams) : URLSearchParams :=
  match l with
  | [] => []
  | (n, v) :: l' =>
      if String.eqb n name then remove_name name l'
      else (n, v) :: remove_name name l'
  end.

Fixpoint set (l : URLSearchParams) (name value : string) : URLSearchParams :=
  match l with
  | [] => [(name, value)]
  | (n, v) :: l' =>
      if String.eqb n name then (n, value) :: remove_name name l'
      else (n, v) :: set l' name value
  end.

(** [params.get(name)]: the value of the first pair named [name]. *)
Fixpoint get (l : URLSearchParams) (name : string) : option string :=
  match l with
  | [] => None
  | (n, v) :: l' => if String.eqb n name then Some v else get l' name
  end.

(** The application/x-www-form-urlencoded byte serialiser: alphanumerics
    and [*-._] stay, a space becomes [+], any other byte becomes [%XX]. *)
Definition hexDigit (n : N) : ascii :=
  ascii_of_N (if (n <? 10)%N then 48 + n else 55 + n)%N.

Definition urlencoded_keep (c : ascii) : bool :=
  let n := N_of_ascii c in
  ((48 <=? n) && (n <=? 57) || (65 <=? n) && (n <=? 90) ||
   (97 <=? n) && (n <=? 122) ||
   (n =? 42) || (n =? 45) || (n =? 46) || (n =? 95))%N.

Fixpoint urlencode (s : string) : string :=
  match s with
  | EmptyString => EmptyString
  | String c s' =>
      let n := N_of_ascii c in
      if urlencoded_keep c then String c (urlencode s')
      else if (n =? 32)%N then String "+" (urlencode s')
      else String "%" (String (hexDigit (n / 16)) (String (hexDigit (n mod 16))
                      (urlencode s')))
  end.

(** [params.toString()] *)
Fixpoint toString (l : URLSearchParams) : string :=
  match l with
  | [] => EmptyString
  | [(n, v)] => urlencode n ++ "=" ++ urlencode v
  | (n, v) :: l' => urlencode n ++ "=" ++ urlencode v ++ "&" ++ toString l'
  end.

(** [new URLSearchParams(query)]: the application/x-www-form-urlencoded
    parser. The query is cut at every [&], empty pieces are dropped, each
    piece is cut at its first [=], and in name and value a [+] is read as
    a space and [%XX], with two hexadecimal digits, as the byte [XX]. *)
Definition is_hex (c : ascii) : bool :=
  let n := N_of_ascii c in
  ((48 <=? n) && (n <=? 57) || (65 <=? n) && (n <=? 70) ||
   (97 <=? n) && (n <=? 102))%N.

Definition unhex (c : ascii) : N :=
  let n := N_of_ascii c in
  (if n <=? 57 then n - 48 else if n <=? 70 then n - 55 else n - 87)%N.

Fixpoint urldecode (s : string) : string :=
  match s with
  | EmptyString => EmptyString
  | String c s1 =>
      if (N_of_ascii c =? 43)%N then String " " (urldecode s1)
      else if (N_of_ascii c =? 37)%N then
        match s1 with
        | String h1 (String h2 s3) =>
            if is_hex h1 && is_hex h2
            then String (ascii_of_N (16 * unhex h1 + unhex h2)) (urldecode s3)
            else String c (urldecode s1)
        | _ => String c (urldecode s1)
        end
      else String c (urldecode s1)
  end.

Fixpoint split_on (sep : ascii) (s : string) : list string :=
  match s with
  | EmptyString => [EmptyString]
  | String c s' =>
      if Ascii.eqb c sep then EmptyString :: split_on sep s'
      else match split_on sep s' with
           | piece :: pieces => String c piece :: pieces
           | [] => [String c EmptyString]
           end
  end.

Fixpoint split_first (sep : ascii) (s : string) : string * string :=
  match s with
  | EmptyString => (EmptyString, EmptyString)
  | String c s' =>
      if Ascii.eqb c sep then (EmptyString, s')
      else let (a, b) := split_first sep s' in (String c a, b)
  end.

Definition parse (query : string) : URLSearchParams :=
  map (fun piece =>
         let (n, v) := split_first "=" piece in (urldecode n, urldecode v))
      (filter (fun piece => negb (String.eqb piece EmptyString))
              (split_on "&" query)).

(** *** Errors *)

(** A thrown value: an [Error] made by the code with its message, or a
    rejection that comes from the browser automation. *)
Inductive Err : Type :=
| Error (message : string)
| SurfaceError (code : Z).

(** *** [buildScheduleUrl] *)

(** The options object: an absent ([undefined]) property is [None]. *)
Record ScheduleOptions : Type := {
  clubPath : option string;
  selectedDate : option string;
  location : option string;
  interest : option string;
  mode : option string;
  teamMemberView : option bool
}.

(** A destructuring default applies when the property is [undefined]. *)
Definition withDefault {A : Type} (dflt : A) (o : option A) : A :=
  match o with Some a => a | None => dflt end.

(** Truthiness of a string-or-undefined value and of a boolean. *)
Definition truthyString (o : option string) : bool :=
  match o with
  | None => false
  | Some s => negb (String.eqb s EmptyString)
  end.

(** Truthiness of a boolean-or-undefined value. *)
Definition truthyBool (o : option bool) : bool :=
  match o with
  | None => false
  | Some b => b
  end.

(** utils.js:54 [buildScheduleUrl] *)
Definition buildScheduleUrl (o : ScheduleOptions) : Err + string :=
  let clubPath :=
    withDefault "https://my.lifetime.life/clubs/va/fairfax/classes.html"
                (clubPath o) in
  let selectedDate := selectedDate o in
  let location := withDefault "Fairfax" (location o) in
  let interest := withDefault "Pickleball Open Play" (interest o) in
  let mode := withDefault "week" (mode o) in
  let teamMemberView := withDefault true (teamMemberView o) in
  if negb (truthyString selectedDate) then
    inl (Error "buildScheduleUrl requires selectedDate (YYYY-MM-DD)")
  else
    let params : URLSearchParams := [] in
    let params :=
      if teamMemberView then set params "teamMemberView" "true" else params in
    let params := set params "mode" mode in
    let params := set params "selectedDate" (withDefault EmptyString selectedDate) in
    let params := set params "interest" interest in
    let params := set params "location" location in
    inr (clubPath ++ "?" ++ toString params).

(** [String(n)] for an integer. *)
Definition stringOfZ (n : Z) : string := NilZero.string_of_int (Z.to_int n).

(** [s.padStart(2, "0")] *)
Definition padStart2 (s : string) : string :=
  match String.length s with
  | O => "00" ++ s
  | S O => "0" ++ s
  | _ => s
  end.

(** utils.js:15 [toISODate] *)
Definition toISODate (zone : ESDate.Zone) (date : ESDate.Date) : string :=
  let year := ESDate.getFullYear zone date in
  let month := padStart2 (stringOfZ (ESDate.getMonth zone date + 1)) in
  let day := padStart2 (stringOfZ (ESDate.getDate zone date)) in
  stringOfZ year ++ "-" ++ month ++ "-" ++ day.

End Text.

(* ================================================================== *)
(** ** The reservation flow *)
(* ================================================================== *)

Module Flow.

Import Text.
Local Open Scope string_scope.

(** *** The surface *)

(** A Playwright locator, built as the script builds it. [Role "button" re]
    is [page.getByRole("button", { name: /re/i })]. *)
Inductive Locator : Type :=
| Role (role nameRegex : string)
| Css (selector : string)
| First (l : Locator)
| Nth (l : Locator) (i : Z)
| Within (l : Locator) (selector : string).

(** Every call that leaves the script: the clock, the timer and the
    browser. Arguments are the ones the script passes. *)
Inductive Call : Type :=
| DateNow
| SetTimeout (ms : Z)
| Launch (headless : bool) (slowMo : Z)
| NewContext
| NewPage
| Goto (url waitUntil : string)
| Fill (selector value : string)
| WaitForLoadState (state : string)
| Click (selector : string)
| WaitForURL (pattern : string) (timeout : Z)
| Reload (waitUntil : string)
| WaitForTimeout (ms : Z)
| LocWaitFor (l : Locator) (state : string) (timeout : Z)
| LocClick (l : Locator)
| LocIsVisible (l : Locator)
| LocCount (l : Locator)
| LocInnerText (l : Locator)
| BrowserClose.

(** The world outside the script. Each answer is a function of the calls
    made so far, so the page and the clock may change between any two
    calls; a promise either resolves ([inr]) or rejects ([inl]), and of two
    promises started together that both reject, [first_rejection] tells
    whether the one listed first rejects first. *)
Record Env : Type := {
  time_zone : ESDate.Zone;
  process_env : string -> option string;
  clock : list Call -> Z;
  settle : list Call -> Call -> option Err;
  answer_bool : list Call -> Call -> Err + bool;
  answer_num : list Call -> Call -> Err + Z;
  answer_text : list Call -> Call -> Err + string;
  first_rejection : list Call -> bool
}.

(** *** constants.js *)

Record OpenTime : Type := { hour : Z; minute : Z; second : Z }.

(** [src/constants.js] is not among the sources: its exports are
    parameters, a record with the fields the importing files name. *)
Record Constants : Type := {
  ENV_EMAIL : string;
  ENV_PASSWORD : string;
  TARGET_WEEKDAY : Z;
  TARGET_DAY_INDEX : Z;
  MUST_INCLUDE : list string;
  OPEN_TIME : OpenTime;
  READY_MINUTES_BEFORE : Z;
  USE_WAIT_UNTIL_OPEN : bool;
  LOGIN_URL : string;
  SCHEDULE_DEFAULTS : ScheduleOptions;
  RESERVE_RETRY_MS : Z;
  RESERVE_MAX_WAIT_MS : Z
}.

(** *** Console and state *)

Inductive Arg : Type :=
| NoArg
| NumArg (n : Z)
| StrArg (s : string)
| DateArg (d : ESDate.Date)
| ErrArg (e : Err).

Inductive Line : Type :=
| Log (text : string) (arg : Arg)       (* console.log *)
| LogError (text : string) (arg : Arg). (* console.error *)

Record State : Type := {
  calls : list Call;      (* oldest first *)
  console : list Line     (* oldest first *)
}.

Definition initial : State := {| calls := []; console := [] |}.

(** *** The monad of the asynchronous code *)

(** How a computation ends: a value, a thrown error (a rejected promise),
    or a loop that is still running when the fuel is spent. *)
Inductive Res (A : Type) : Type :=
| Ok (a : A)
| Throw (e : Err)
| Running.

Arguments Ok {A} a.
Arguments Throw {A} e.
Arguments Running {A}.

Definition M (A : Type) : Type := State -> Res A * State.

Definition ret {A : Type} (a : A) : M A := fun s => (Ok a, s).

Definition throw {A : Type} (e : Err) : M A := fun s => (Throw e, s).

Definition bind {A B : Type} (m : M A) (k : A -> M B) : M B :=
  fun s =>
    match m s with
    | (Ok a, s') => k a s'
    | (Throw e, s') => (Throw e, s')
    | (Running, s') => (Running, s')
    end.

Declare Scope flow_scope.
Delimit Scope flow_scope with flow.

Notation "x <- m ;; k" := (bind m (fun x => k))
  (at level 61, m at next level, right associativity) : flow_scope.
Notation "m ;; k" := (bind m (fun _ => k))
  (at level 61, right associativity) : flow_scope.

Local Open Scope flow_scope.

(** [try { body } catch { handler }] *)
Definition try_catch {A : Type} (body : M A) (handler : Err -> M A) : M A :=
  fun s =>
    match body s with
    | (Throw e, s') => handler e s'
    | r => r
    end.

(** [try { body } finally { fin }]: [fin] runs on both exits and an error
    it throws replaces the outcome of [body]. *)
Definition try_finally {A : Type} (body : M A) (fin : M unit) : M A :=
  fun s =>
    match body s with
    | (Running, s') => (Running, s')
    | (r, s') =>
        match fin s' with
        | (Ok _, s'') => (r, s'')
        | (Throw e, s'') => (Throw e, s'')
        | (Running, s'') => (Running, s'')
        end
    end.

(** [Promise.all([a, b])] of two calls: both are started, in this order.
    When one of them rejects, its error is the outcome; when both reject,
    the outcome is the error of the one that rejects first in time, which
    [first_wins] tells from the calls made so far. *)
Definition promise_all2 (first_wins : list Call -> bool) (a b : M unit)
  : M unit :=
  fun s =>
    let '(ra, s1) := a s in
    match ra with
    | Running => (Running, s1)
    | _ =>
        let '(rb, s2) := b s1 in
        match ra, rb with
        | _, Running => (Running, s2)
        | Throw ea, Throw eb =>
            (Throw (if first_wins (calls s2) then ea else eb), s2)
        | Throw e, _ => (Throw e, s2)
        | _, Throw e => (Throw e, s2)
        | _, _ => (Ok tt, s2)
        end
    end.

Definition record (c : Call) (s : State) : State :=
  {| calls := calls s ++ [c]; console := console s |}.

Definition print (l : Line) : M unit :=
  fun s => (Ok tt, {| calls := calls s; console := console s ++ [l] |}).

Definition of_sum {A : Type} (r : Err + A) : Res A :=
  match r with inl e => Throw e | inr a => Ok a end.

Section WithEnv.

Variable env : Env.
Variable K : Constants.

(** [Date.now()], [new Date()] *)
Definition now : M Z :=
  fun s => (Ok (clock env (calls s)), record DateNow s).

(** utils.js:7 [sleep]: the promise of a timer, which always resolves. *)
Definition sleep (ms : Z) : M unit :=
  fun s => (Ok tt, record (SetTimeout ms) s).

(** A browser call whose promise carries no value. *)
Definition do (c : Call) : M unit :=
  fun s =>
    (match settle env (calls s) c with None => Ok tt | Some e => Throw e end,
     record c s).

Definition ask_bool (c : Call) : M bool :=
  fun s => (of_sum (answer_bool env (calls s) c), record c s).

Definition ask_num (c : Call) : M Z :=
  fun s => (of_sum (answer_num env (calls s) c), record c s).

Definition ask_text (c : Call) : M string :=
  fun s => (of_sum (answer_text env (calls s) c), record c s).

(** utils.js:11 [msUntilDateTime(targetDate)] with [nowMs = Date.now()] *)
Definition msUntil (targetDate : ESDate.Date) : M Z :=
  nowMs <- now ;; ret (ESDate.msUntilDateTime targetDate nowMs).

(** *** utils.js:93 [clickReserveAndFinish] *)

Definition reserveBtn : Locator := Role "button" "^Reserve$".
Definition finishBtn : Locator := Role "button" "^Finish$".
Definition waitlistBtn : Locator := Role "button" "waitlist".

(** [locator.isVisible().catch(() => false)] *)
Definition isVisibleOrFalse (l : Locator) : M bool :=
  try_catch (ask_bool (LocIsVisible l)) (fun _ => ret false).

(** The [while] loop of lines 100-120; one unit of fuel per iteration. *)
Fixpoint poll (fuel : nat) (start : Z) : M unit :=
  match fuel with
  | O => fun s => (Running, s)
  | S fuel' =>
      t <- now ;;
      if (t - start <? RESERVE_MAX_WAIT_MS K)%Z then
        rv <- isVisibleOrFalse reserveBtn ;;
        if rv then
          print (Log "Reserve visible. Clicking Reserve..." NoArg) ;;
          do (LocClick reserveBtn) ;;
          print (Log "Waiting for Finish..." NoArg) ;;
          do (LocWaitFor finishBtn "visible" 15000) ;;
          do (LocClick finishBtn) ;;
          print (Log "Finish clicked. Reservation complete." NoArg) ;;
          ret tt
        else
          wv <- isVisibleOrFalse waitlistBtn ;;
          if wv then
            print (Log "Class is waitlisted. Stopping retries." NoArg) ;;
            ret tt
          else
            sleep (RESERVE_RETRY_MS K) ;;
            try_catch (do (Reload "domcontentloaded")) (fun _ => ret tt) ;;
            poll fuel' start
      else
        throw (Error "Timed out (5 minutes) waiting for Reserve button.")
  end.

Definition clickReserveAndFinish (fuel : nat) : M unit :=
  start <- now ;;
  poll fuel start.

(** *** utils.js:125 [dismissCookieBanner] *)

Definition acceptBtn : Locator := Role "button" "accept all".

Definition dismissCookieBanner : M unit :=
  try_catch
    (do (LocWaitFor acceptBtn "visible" 6000) ;;
     print (Log "Cookie banner detected. Clicking Accept All..." NoArg) ;;
     do (LocClick acceptBtn) ;;
     sleep 400)
    (fun _ => print (Log "No cookie banner." NoArg)).

(** *** The main script: [run] *)

Definition truthy (o : option string) : bool := truthyString o.

Definition EMAIL : option string := process_env env (ENV_EMAIL K).
Definition PASSWORD : option string := process_env env (ENV_PASSWORD K).
Definition CI : bool := truthy (process_env env "CI").

(** Lines 95-102: the wait for the ready instant. *)
Definition wait_until_ready (readyAt : ESDate.Date) : M unit :=
  if USE_WAIT_UNTIL_OPEN K then
    msToReady <- msUntil readyAt ;;
    if (msToReady >? 0)%Z then
      print (Log "Sleeping until ready time (ms):" (NumArg msToReady)) ;;
      sleep msToReady
    else ret tt
  else ret tt.

(** Line 242: [while (msUntilDateTime(openAt) > 0) {}]. *)
Fixpoint spin (fuel : nat) (openAt : ESDate.Date) : M unit :=
  match fuel with
  | O => fun s => (Running, s)
  | S fuel' =>
      ms <- msUntil openAt ;;
      if (ms >? 0)%Z then spin fuel' openAt else ret tt
  end.

(** Lines 230-244: the wait for the open instant. *)
Definition wait_until_open (fuel : nat) (openAt : ESDate.Date) : M unit :=
  if USE_WAIT_UNTIL_OPEN K then
    msToOpen <- msUntil openAt ;;
    if (msToOpen >? 0)%Z then
      print (Log "Waiting until open (ms):" (NumArg msToOpen)) ;;
      (if (msToOpen >? 400)%Z then sleep (msToOpen - 200) else ret tt) ;;
      spin fuel openAt
    else ret tt
  else ret tt.

Definition days : Locator := Css "div.calendar > div.day".
Definition targetCol : Locator := Nth days (TARGET_DAY_INDEX K).

(** The double quote, for selectors that contain one. *)
Definition dq : string := String (ascii_of_N 34) EmptyString.
Definition nl : string := String (ascii_of_N 10) EmptyString.

Definition classCell : string := "[data-testid=" ++ dq ++ "classCell" ++ dq ++ "]".
Definition classLink : string := "[data-testid=" ++ dq ++ "classLink" ++ dq ++ "]".
Definition passwordInput : string := "input[type=" ++ dq ++ "password" ++ dq ++ "]".
Definition submitButton : string := "button[type=" ++ dq ++ "submit" ++ dq ++ "]".

Definition cards : Locator := Within targetCol classCell.

(** Lines 187-195: the [for] loop over the cards of the target column,
    [n] iterations left, at index [i]; the index of the first match. *)
Fixpoint find_card (n : nat) (i : Z) : M (option Z) :=
  match n with
  | O => ret None
  | S n' =>
      text <- ask_text (LocInnerText (Nth cards i)) ;;
      if cardMatches text (MUST_INCLUDE K) then
        print (Log ("Matched card:" ++ nl) (StrArg text)) ;;
        ret (Some i)
      else find_card n' (i + 1)
  end.

(** Lines 42-120: everything before the [try]; yields the schedule URL. *)
Definition run_pre (classDate openAt : ESDate.Date) : M string :=
  (if negb (truthy EMAIL) || negb (truthy PASSWORD) then
     throw (Error ("Missing " ++ ENV_EMAIL K ++ " or " ++ ENV_PASSWORD K
                   ++ " environment variables."))
   else ret tt) ;;
  let readyAt : ESDate.Date :=
    ESDate.getTime openAt - READY_MINUTES_BEFORE K * 60000 in
  let selectedDate := toISODate (time_zone env) classDate in
  scheduleUrl <-
    (fun s => (of_sum (buildScheduleUrl
       {| clubPath := clubPath (SCHEDULE_DEFAULTS K);
          selectedDate := Some selectedDate;
          location := location (SCHEDULE_DEFAULTS K);
          interest := interest (SCHEDULE_DEFAULTS K);
          mode := mode (SCHEDULE_DEFAULTS K);
          teamMemberView := teamMemberView (SCHEDULE_DEFAULTS K) |}), s)) ;;
  d <- now ;;
  print (Log "Now:" (DateArg d)) ;;
  print (Log "Target classDate:" (DateArg classDate)) ;;
  print (Log "Open at:" (DateArg openAt)) ;;
  print (Log "Ready at:" (DateArg readyAt)) ;;
  print (Log "Schedule URL:" (StrArg scheduleUrl)) ;;
  wait_until_ready readyAt ;;
  print (Log "Launching browser..." NoArg) ;;
  do (Launch CI (if CI then 0 else 100)) ;;
  do NewContext ;;
  do NewPage ;;
  ret scheduleUrl.

(** Lines 127-256: the [try] block up to the reservation attempt. *)
Definition run_enter (fuel : nat) (openAt : ESDate.Date) (scheduleUrl : string)
  : M unit :=
  print (Log "Navigating to login..." NoArg) ;;
  do (Goto (LOGIN_URL K) "networkidle") ;;
  do (Fill "#account-username" (withDefault EmptyString EMAIL)) ;;
  do (Fill passwordInput (withDefault EmptyString PASSWORD)) ;;
  promise_all2 (first_rejection env)
    (do (WaitForLoadState "networkidle")) (do (Click submitButton)) ;;
  print (Log "Logged in." NoArg) ;;
  print (Log "Opening schedule page..." NoArg) ;;
  do (Goto scheduleUrl "domcontentloaded") ;;
  dismissCookieBanner ;;
  do (LocWaitFor (First (Css classCell)) "visible" 20000) ;;
  dayCount <- ask_num (LocCount days) ;;
  (if (dayCount <? 7)%Z then throw (Error "Could not find 7 day columns.")
   else ret tt) ;;
  cardCount <- ask_num (LocCount cards) ;;
  targetCard <- find_card (Z.to_nat cardCount) 0 ;;
  match targetCard with
  | None => throw (Error "Could not find matching class card.")
  | Some i =>
      print (Log "Clicking class (entering details page)..." NoArg) ;;
      let link := First (Within (Nth cards i) classLink) in
      promise_all2 (first_rejection env)
                   (do (WaitForURL "class-details\.html" 15000))
                   (do (LocClick link)) ;;
      dismissCookieBanner ;;
      print (Log "On class details page. Waiting until open time..." NoArg) ;;
      wait_until_open fuel openAt ;;
      print (Log "Attempting reserve (retry up to 5 minutes)..." NoArg)
  end.

(** Lines 257-260: the attempt and what follows it inside the [try]. *)
Definition run_reserve (fuel : nat) : M unit :=
  clickReserveAndFinish fuel ;;
  print (Log "Done." NoArg) ;;
  do (WaitForTimeout 1000).

(** Lines 40-265: [run({ classDate, openAt })]. *)
Definition run (fuel : nat) (classDate openAt : ESDate.Date) : M unit :=
  scheduleUrl <- run_pre classDate openAt ;;
  try_finally
    (run_enter fuel openAt scheduleUrl ;; run_reserve fuel)
    (do BrowserClose).

(** Lines 281-288: the session window, from [new Date()]. *)
Definition session_window : M (ESDate.Date * ESDate.Date) :=
  today <- now ;;
  let classDate :=
    ESDate.computeTargetClassDate (time_zone env) (TARGET_WEEKDAY K) today in
  let openAt :=
    ESDate.computeOpenTimeForClass (time_zone env) classDate
      (hour (OPEN_TIME K)) (minute (OPEN_TIME K)) (second (OPEN_TIME K)) in
  ret (classDate, openAt).

(** Lines 291-294: [.catch((err) => { console.error("Error:", err);
    process.exitCode = 1; })]. The value is the exit code of the process:
    [process.exitCode] when the handler has set it, 0 when it was left
    unset; [None] while a loop is still running. *)
Definition top_level_catch (r : Res unit * State) : option Z * State :=
  match r with
  | (Ok _, s') => (Some 0, s')
  | (Throw err, s') =>
      (Some 1, {| calls := calls s';
                  console := console s' ++ [LogError "Error:" (ErrArg err)] |})
  | (Running, s') => (None, s')
  end.

(** Lines 281-294: the whole script. *)
Definition main (fuel : nat) (s : State) : option Z * State :=
  top_level_catch ((w <- session_window ;; run fuel (fst w) (snd w)) s).

(** The script reaches the call of [clickReserveAndFinish] in state [s1]. *)
Definition reaches_attempt (fuel : nat) (s0 s1 : State) : Prop :=
  (w <- session_window ;;
   scheduleUrl <- run_pre (fst w) (snd w) ;;
   run_enter fuel (snd w) scheduleUrl) s0 = (Ok tt, s1).

(** *** The wait protocol, as the specification words it *)

(** Specification, section 4.2: return at once when [msUntil target <= 0];
    suspend for [msUntil target - spinGuardMs] when [msUntil target] exceeds
    [thresholdMs]; then busy-poll until [msUntil target <= 0]. *)
Definition wait_protocol_spec (thresholdMs spinGuardMs : Z) (fuel : nat)
  (target : ESDate.Date) : M unit :=
  ms <- msUntil target ;;
  if (ms <=? 0)%Z then ret tt
  else
    (if (ms >? thresholdMs)%Z then sleep (ms - spinGuardMs) else ret tt) ;;
    spin fuel target.

End WithEnv.

(** The two lines by which the console tells the outcomes apart. *)
Definition waitlisted_line : Line :=
  Log "Class is waitlisted. Stopping retries." NoArg.
Definition timed_out : Err :=
  Error "Timed out (5 minutes) waiting for Reserve button.".

(** Time spent in a call: a timer lasts as long as it was set for. *)
Definition min_duration (c : Call) : Z :=
  match c with SetTimeout ms => Z.max 0 ms | _ => 0 end.

(** After the calls [h0], the clock never runs backwards and a timer takes
    at least the time it was set for. *)
Definition clock_advances (env : Env) (h0 : list Call) : Prop :=
  forall h c,
    clock env (h0 ++ h) + min_duration c <= clock env (h0 ++ h ++ [c]).

(** What [isVisible().catch(() => false)] yields for [l] after the calls
    [h]: a failed probe counts as not visible. *)
Definition probe (env : Env) (h : list Call) (l : Locator) : bool :=
  match answer_bool env h (LocIsVisible l) with
  | inr b => b
  | inl _ => false
  end.

(** After the calls [h0], no probe finds the locator [l] visible. *)
Definition never_visible (env : Env) (h0 : list Call) (l : Locator) : Prop :=
  forall h, probe env (h0 ++ h) l = false.

End Flow.

(* ================================================================== *)
(** ** Concrete environments *)
(* ================================================================== *)

Module Demo.

Import Text Flow.
Local Open Scope string_scope.

(** Modelled from the spec: the exports of [src/constants.js], which is
    not among the sources, at the values the specification quotes: Monday,
    opening at 20:00:00, a retry every 350 ms, five minutes of polling. *)
Definition K0 : Constants := {|
  ENV_EMAIL := "LT_EMAIL";
  ENV_PASSWORD := "LT_PASSWORD";
  TARGET_WEEKDAY := 1;
  TARGET_DAY_INDEX := 1;
  MUST_INCLUDE := ["Pickleball Open Play"; "8:00 - 10:00 PM"];
  OPEN_TIME := {| hour := 20; minute := 0; second := 0 |};
  READY_MINUTES_BEFORE := 1;
  USE_WAIT_UNTIL_OPEN := true;
  LOGIN_URL := "https://my.lifetime.life/login.html";
  SCHEDULE_DEFAULTS := {| clubPath := None; selectedDate := None;
                          location := None; interest := None; mode := None;
                          teamMemberView := None |};
  RESERVE_RETRY_MS := 350;
  RESERVE_MAX_WAIT_MS := 300000
|}.

(** A clock on which a timer lasts exactly as long as it was set for and
    every reading takes one millisecond. *)
Definition cost (c : Call) : Z :=
  match c with
  | SetTimeout ms => Z.max 0 ms
  | DateNow => 1
  | _ => 0
  end.

Definition elapsed (h : list Call) : Z :=
  fold_right (fun c acc => cost c + acc) 0 h.

Definition reloads (h : list Call) : nat :=
  List.length (filter (fun c => match c with Reload _ => true | _ => false end) h).

(** New York in 2026: five hours behind UTC, four from Sunday 8 March
    07:00 UTC (02:00 local, clocks set forward) to Sunday 1 November 06:00
    UTC (02:00 local, clocks set back). *)
Definition new_york_2026 : ESDate.Zone := {|
  ESDate.base_offset := -18000000;
  ESDate.transitions :=
    [(20520 * ESDate.msPerDay + 7 * ESDate.msPerHour, -14400000);
     (20758 * ESDate.msPerDay + 6 * ESDate.msPerHour, -18000000)]
|}.

(** Sunday 2026-02-22 19:58:30 in New York, five hours behind UTC. *)
Definition tza0 : Z := -18000000.
Definition t0 : Z :=
  20506 * ESDate.msPerDay + 19 * ESDate.msPerHour + 58 * ESDate.msPerMinute
  + 30000 - tza0.

(** A surface on which every action succeeds, the target column holds two
    cards, the reserve control never shows and the waitlist indicator shows
    once the page has been reloaded [n] times ([None]: never). *)
Definition surface (waitlist_after : option nat) : Env := {|
  time_zone := new_york_2026;
  process_env := fun name =>
    if String.eqb name "LT_EMAIL" then Some "member@example.org"
    else if String.eqb name "LT_PASSWORD" then Some "secret"
    else if String.eqb name "CI" then Some "true"
    else None;
  clock := fun h => t0 + elapsed h;
  settle := fun _ _ => None;
  answer_bool := fun h c =>
    match c with
    | LocIsVisible (Role _ "waitlist") =>
        inr (match waitlist_after with
             | Some n => (n <=? reloads h)%nat
             | None => false
             end)
    | _ => inr false
    end;
  answer_num := fun _ c =>
    match c with
    | LocCount (Css _) => inr 7
    | _ => inr 2
    end;
  answer_text := fun _ c =>
    match c with
    | LocInnerText (Nth _ 1) =>
        inr "8:00 - 10:00 PM Pickleball Open Play: All Levels"
    | _ => inr "6:00 - 8:00 AM Pickleball Open Play: Beginner"
    end;
  first_rejection := fun _ => true
|}.

(** The state in which the script reaches the reservation attempt, and the
    state in which the attempt leaves it. *)
Definition at_attempt (e : Env) (fuel : nat) : State :=
  snd (bind (session_window e K0)
         (fun w => bind (run_pre e K0 (fst w) (snd w))
                     (fun url => run_enter e K0 fuel (snd w) url)) initial).

Definition after_attempt (e : Env) (fuel : nat) : State :=
  snd (clickReserveAndFinish e K0 fuel (at_attempt e fuel)).

End Demo.

(* ================================================================== *)
(** ** The rest of utils.js and vocabulary for its properties *)
(* ================================================================== *)

Module Rest.

Import Text Flow.

(** utils.js:82 [withinWindow(now, openAt, earlyMs, lateMs)]; an omitted
    bound is [None] and takes its default of two and of five minutes. *)
Definition withinWindow (now openAt : ESDate.Date) (earlyMs lateMs : option Z)
  : bool :=
  let earlyMs := withDefault (2 * 60 * 1000) earlyMs in
  let lateMs := withDefault (5 * 60 * 1000) lateMs in
  let t := ESDate.getTime now in
  let o := ESDate.getTime openAt in
  (t >=? o - earlyMs) && (t <=? o + lateMs).

(** Every code unit of a string satisfies [p]. *)
Fixpoint all_chars (p : ascii -> bool) (s : string) : bool :=
  match s with
  | EmptyString => true
  | String c s' => p c && all_chars p s'
  end.

(** The string holds no occurrence of the code unit [sep]. *)
Definition free_of (sep : ascii) (s : string) : bool :=
  all_chars (fun c => negb (Ascii.eqb c sep)) s.

(** The characters a serialised query is made of: the ones the serialiser
    keeps, the [+] of a space, the [%] of an escape, and the separators
    [=] and [&]. *)
Definition query_char (c : ascii) : bool :=
  urlencoded_keep c
  || (N_of_ascii c =? 43)%N || (N_of_ascii c =? 37)%N
  || (N_of_ascii c =? 61)%N || (N_of_ascii c =? 38)%N.

(** A string of exactly [n] decimal digits. *)
Definition is_digit (c : ascii) : bool :=
  ((48 <=? N_of_ascii c) && (N_of_ascii c <=? 57))%N.

Definition digits_of_length (n : nat) (s : string) : bool :=
  (String.length s =? n)%nat && all_chars is_digit s.

(** The calls that act on an element of the page. *)
Definition is_action (c : Call) : bool :=
  match c with
  | LocClick _ | LocWaitFor _ _ _ | Click _ | Fill _ _ => true
  | _ => false
  end.

(** The [m] reads of the [for] loop over the cards, from index [i] on. *)
Definition card_reads (K : Constants) (i : Z) (m : nat) : list Call :=
  map (fun k => LocInnerText (Nth (cards K) (i + Z.of_nat k))) (seq 0 m).

(** After the calls [h0], every reading of the clock takes at least one
    millisecond. *)
Definition clock_ticks (env : Env) (h0 : list Call) : Prop :=
  forall h, clock env (h0 ++ h) + 1 <= clock env (h0 ++ h ++ [DateNow]).

(** The three stages of the [try] block of [run] before the attempt:
    lines 127-153 (log in and open the schedule), lines 163-199 (find the
    target card, yielding its index) and lines 208-256 (enter the details
    page and wait for the open instant). *)
Definition open_schedule (env : Env) (K : Constants) (scheduleUrl : string)
  : M unit :=
  (print (Log "Navigating to login..." NoArg) ;;
   do env (Goto (LOGIN_URL K) "networkidle") ;;
   do env (Fill "#account-username" (withDefault EmptyString (EMAIL env K))) ;;
   do env (Fill passwordInput (withDefault EmptyString (PASSWORD env K))) ;;
   promise_all2 (first_rejection env)
                (do env (WaitForLoadState "networkidle"))
                (do env (Click submitButton)) ;;
   print (Log "Logged in." NoArg) ;;
   print (Log "Opening schedule page..." NoArg) ;;
   do env (Goto scheduleUrl "domcontentloaded") ;;
   dismissCookieBanner env ;;
   do env (LocWaitFor (First (Css classCell)) "visible" 20000))%flow.

Definition pick_card (env : Env) (K : Constants) : M Z :=
  (dayCount <- ask_num env (LocCount days) ;;
   (if dayCount <? 7 then throw (Error "Could not find 7 day columns.")
    else ret tt) ;;
   cardCount <- ask_num env (LocCount (cards K)) ;;
   targetCard <- find_card env K (Z.to_nat cardCount) 0 ;;
   match targetCard with
   | None => throw (Error "Could not find matching class card.")
   | Some i => ret i
   end)%flow.

Definition enter_details (env : Env) (K : Constants) (fuel : nat)
  (openAt : ESDate.Date) (i : Z) : M unit :=
  (print (Log "Clicking class (entering details page)..." NoArg) ;;
   promise_all2 (first_rejection env)
                (do env (WaitForURL "class-details\.html" 15000))
                (do env (LocClick (First (Within (Nth (cards K) i) classLink)))) ;;
   dismissCookieBanner env ;;
   print (Log "On class details page. Waiting until open time..." NoArg) ;;
   wait_until_open env K fuel openAt ;;
   print (Log "Attempting reserve (retry up to 5 minutes)..." NoArg))%flow.

(** Two more surfaces for concrete runs: one on which the reserve control
    is visible and the Finish control shows or not, one whose process
    environment holds no credentials. *)
Definition open_surface (finish_shows : bool) : Env := {|
  time_zone := time_zone (Demo.surface None);
  process_env := process_env (Demo.surface None);
  clock := clock (Demo.surface None);
  settle := fun _ c =>
    match c with
    | LocWaitFor (Role _ "^Finish$"%string) _ _ =>
        if finish_shows then None else Some (SurfaceError 408)
    | _ => None
    end;
  answer_bool := fun _ c =>
    match c with
    | LocIsVisible (Role _ "^Reserve$"%string) => inr true
    | _ => inr false
    end;
  answer_num := answer_num (Demo.surface None);
  answer_text := answer_text (Demo.surface None);
  first_rejection := first_rejection (Demo.surface None)
|}.

(** A schedule page with five day columns only. *)
Definition few_columns : Env := {|
  time_zone := time_zone (Demo.surface None);
  process_env := process_env (Demo.surface None);
  clock := clock (Demo.surface None);
  settle := settle (Demo.surface None);
  answer_bool := answer_bool (Demo.surface None);
  answer_num := fun _ _ => inr 5;
  answer_text := answer_text (Demo.surface None);
  first_rejection := first_rejection (Demo.surface None)
|}.

(** The constants of the demonstration with criteria no card meets. *)
Definition K_tennis : Constants := {|
  ENV_EMAIL := ENV_EMAIL Demo.K0;
  ENV_PASSWORD := ENV_PASSWORD Demo.K0;
  TARGET_WEEKDAY := TARGET_WEEKDAY Demo.K0;
  TARGET_DAY_INDEX := TARGET_DAY_INDEX Demo.K0;
  MUST_INCLUDE := ["Tennis"%string];
  OPEN_TIME := OPEN_TIME Demo.K0;
  READY_MINUTES_BEFORE := READY_MINUTES_BEFORE Demo.K0;
  USE_WAIT_UNTIL_OPEN := USE_WAIT_UNTIL_OPEN Demo.K0;
  LOGIN_URL := LOGIN_URL Demo.K0;
  SCHEDULE_DEFAULTS := SCHEDULE_DEFAULTS Demo.K0;
  RESERVE_RETRY_MS := RESERVE_RETRY_MS Demo.K0;
  RESERVE_MAX_WAIT_MS := RESERVE_MAX_WAIT_MS Demo.K0
|}.

(** The constants of the demonstration with an opening time whose minute
    field is eight days long. *)
Definition K_rollover : Constants := {|
  ENV_EMAIL := ENV_EMAIL Demo.K0;
  ENV_PASSWORD := ENV_PASSWORD Demo.K0;
  TARGET_WEEKDAY := TARGET_WEEKDAY Demo.K0;
  TARGET_DAY_INDEX := TARGET_DAY_INDEX Demo.K0;
  MUST_INCLUDE := MUST_INCLUDE Demo.K0;
  OPEN_TIME := {| hour := 0; minute := 11520; second := 0 |};
  READY_MINUTES_BEFORE := READY_MINUTES_BEFORE Demo.K0;
  USE_WAIT_UNTIL_OPEN := USE_WAIT_UNTIL_OPEN Demo.K0;
  LOGIN_URL := LOGIN_URL Demo.K0;
  SCHEDULE_DEFAULTS := SCHEDULE_DEFAULTS Demo.K0;
  RESERVE_RETRY_MS := RESERVE_RETRY_MS Demo.K0;
  RESERVE_MAX_WAIT_MS := RESERVE_MAX_WAIT_MS Demo.K0
|}.

Definition no_credentials : Env := {|
  time_zone := time_zone (Demo.surface None);
  process_env := fun _ => None;
  clock := clock (Demo.surface None);
  settle := settle (Demo.surface None);
  answer_bool := answer_bool (Demo.surface None);
  answer_num := answer_num (Demo.surface None);
  answer_text := answer_text (Demo.surface None);
  first_rejection := first_rejection (Demo.surface None)
|}.

End Rest.

(* ================================================================== *)
(** ** Theorems: the temporal planner *)
(* ================================================================== *)

Section CalendarFacts.

Import ESDate.

Lemma YearFromTime_spec t :
  DayFromYear (YearFromTime t) <= Day t < DayFromYear (YearFromTime t + 1).
Proof.
  unfold YearFromTime.
  generalize (Day t); intros d; cbv zeta.
  set (y := 1970 + 400 * d / 146097).
  assert (Hy : 146097 * (y - 1970) <= 400 * d < 146097 * (y - 1970) + 146097).
  { unfold y. Z.div_mod_to_equations. lia. }
  clearbody y.
  destruct (Z.ltb_spec d (DayFromYear y)) as [Hlt | Hge].
  - unfold DayFromYear in *. Z.div_mod_to_equations. lia.
  - destruct (Z.leb_spec (DayFromYear (y + 1)) d) as [Hle | Hlt].
    + unfold DayFromYear in *. Z.div_mod_to_equations. lia.
    + lia.
Qed.

Lemma MonthFromTime_range t : 0 <= MonthFromTime t <= 11.
Proof.
  unfold MonthFromTime.
  repeat match goal with
         | |- context [if ?b then _ else _] => destruct b
         end; lia.
Qed.

(** [MakeDay] undoes [YearFromTime], [MonthFromTime] and [DateFromTime],
    and a date number beyond the month's end moves on by whole days. *)
Lemma MakeDay_of_time t k :
  MakeDay (YearFromTime t) (MonthFromTime t) (DateFromTime t + k) = Day t + k.
Proof.
  pose proof (MonthFromTime_range t) as Hm.
  unfold MakeDay; cbv zeta.
  rewrite (Z.div_small (MonthFromTime t) 12) by lia.
  rewrite (Z.mod_small (MonthFromTime t) 12) by lia.
  rewrite Z.add_0_r.
  unfold DateFromTime, DayWithinYear, InLeapYear. lia.
Qed.

Lemma MakeDate_Day_TimeWithinDay t k :
  MakeDate (Day t + k) (TimeWithinDay t) = t + k * msPerDay.
Proof.
  unfold MakeDate, Day, TimeWithinDay.
  pose proof (Z.div_mod t msPerDay ltac:(discriminate)). lia.
Qed.

Lemma Day_plus_days t k : Day (t + k * msPerDay) = Day t + k.
Proof. unfold Day. apply Z.div_add. discriminate. Qed.

Lemma Day_MakeDate day time :
  0 <= time < msPerDay -> Day (MakeDate day time) = day.
Proof.
  intros Ht. unfold Day, MakeDate.
  rewrite Z.add_comm, Z.div_add by discriminate.
  rewrite Z.div_small by assumption. reflexivity.
Qed.

Lemma clock_time_within_day h m s :
  0 <= h <= 23 -> 0 <= m <= 59 -> 0 <= s <= 59 ->
  0 <= MakeTime h m s 0 < msPerDay.
Proof.
  intros Hh Hm Hs.
  unfold MakeTime, msPerHour, msPerMinute, msPerSecond, msPerDay. lia.
Qed.

(** *** Time zones *)

Lemma offset_from_in o trs t : In (offset_from o trs t) (o :: map snd trs).
Proof.
  revert o. induction trs as [| [T o'] trs IH]; intros o; cbn [offset_from].
  - now left.
  - destruct (t <? T); [now left |]. right. apply IH.
Qed.

Lemma resolve_from_in o trs tl :
  exists o', In o' (o :: map snd trs) /\ resolve_from o trs tl = tl - o'.
Proof.
  revert o. induction trs as [| [T o1] trs IH]; intros o; cbn [resolve_from].
  - exists o. split; [now left | reflexivity].
  - destruct (tl - o <? T); [exists o; split; [now left | reflexivity] |].
    destruct (tl - o1 <? T); [exists o; split; [now left | reflexivity] |].
    destruct (IH o1) as (o' & Hin & E). exists o'. split; [now right | exact E].
Qed.

Lemma LocalTime_offset z t :
  exists o, In o (offsets z) /\ LocalTime z t = t + o.
Proof.
  exists (offset_from (base_offset z) (transitions z) t).
  split; [apply offset_from_in | reflexivity].
Qed.

Lemma UTC_offset z tl : exists o, In o (offsets z) /\ UTC z tl = tl - o.
Proof. apply resolve_from_in. Qed.

(** A zone without transitions satisfies every property of a zone. *)
Lemma fixed_LocalTime o t : LocalTime (fixed o) t = t + o.
Proof. reflexivity. Qed.

Lemma fixed_UTC o tl : UTC (fixed o) tl = tl - o.
Proof. reflexivity. Qed.

Lemma fixed_keeps_day o : keeps_day (fixed o).
Proof. intros tl. unfold LocalTime, UTC, fixed; cbn. f_equal. lia. Qed.

Lemma fixed_resolves_back o : resolves_back (fixed o).
Proof. intros t. unfold LocalTime, UTC, fixed; cbn. lia. Qed.

Lemma fixed_settled o : settled (fixed o).
Proof. intros tl. unfold LocalTime, UTC, fixed; cbn. lia. Qed.

Lemma fixed_day_spread o : day_spread (fixed o).
Proof.
  intros o1 o2 [<- | []] [<- | []]. unfold msPerDay. lia.
Qed.

Lemma fixed_occurs o tl : occurs (fixed o) tl.
Proof. exists (tl - o). unfold LocalTime, fixed; cbn. lia. Qed.

(** A local time that occurs is the local time of the instant it stands
    for. *)
Lemma occurs_resolved z tl :
  resolves_back z -> occurs z tl -> LocalTime z (UTC z tl) = tl.
Proof. intros Hb [t <-]. apply Hb. Qed.

Lemma no_transition_LocalTime z t :
  transitions z = [] -> LocalTime z t = t + base_offset z.
Proof. intros H. unfold LocalTime. now rewrite H. Qed.

Lemma no_transition_UTC z tl :
  transitions z = [] -> UTC z tl = tl - base_offset z.
Proof. intros H. unfold UTC. now rewrite H. Qed.

End CalendarFacts.

(** New York in 2026 satisfies them as well. *)
Ltac zone_cases :=
  unfold ESDate.LocalTime, ESDate.UTC, Demo.new_york_2026;
  cbn [ESDate.base_offset ESDate.transitions ESDate.resolve_from
       ESDate.offset_from];
  change (20520 * ESDate.msPerDay + 7 * ESDate.msPerHour) with 1772953200000;
  change (20758 * ESDate.msPerDay + 6 * ESDate.msPerHour) with 1793512800000;
  repeat match goal with
         | |- context [?a <? ?b] => destruct (Z.ltb_spec a b)
         end.

Lemma new_york_keeps_day : ESDate.keeps_day Demo.new_york_2026.
Proof.
  intros tl. zone_cases; unfold ESDate.Day, ESDate.msPerDay; try lia;
    try (f_equal; lia); Z.div_mod_to_equations; lia.
Qed.

Lemma new_york_resolves_back : ESDate.resolves_back Demo.new_york_2026.
Proof. intros t. zone_cases; lia. Qed.

Lemma new_york_settled : ESDate.settled Demo.new_york_2026.
Proof. intros tl. zone_cases; lia. Qed.

Lemma new_york_day_spread : ESDate.day_spread Demo.new_york_2026.
Proof.
  intros o1 o2 H1 H2. unfold ESDate.msPerDay.
  cbn in H1, H2.
  repeat match goal with H : _ \/ _ |- _ => destruct H end; subst; lia.
Qed.

(** In New York in 2026 every local time occurs but those of the hour from
    02:00 to 03:00 on 8 March. *)
Lemma new_york_occurs tl :
  ESDate.occurs Demo.new_york_2026 tl <->
  ~ (1772935200000 <= tl < 1772938800000).
Proof.
  split.
  - intros [t <-]. zone_cases; lia.
  - intros H.
    destruct (Z.ltb_spec tl 1772935200000);
      [exists (tl + 18000000); zone_cases; lia |].
    destruct (Z.ltb_spec tl 1793498400000);
      [exists (tl + 14400000); zone_cases; lia |].
    exists (tl + 18000000); zone_cases; lia.
Qed.

Section PlannerFacts.

Import ESDate.

Variable z : Zone.

(** [d.setDate(d.getDate() + k)] is the instant that the local time of [d]
    moved by [k] calendar days stands for. *)
Lemma setDate_getDate_plus d k :
  setDate z d (getDate z d + k) = UTC z (LocalTime z d + k * msPerDay).
Proof.
  unfold setDate, getDate; cbv zeta.
  now rewrite MakeDay_of_time, MakeDate_Day_TimeWithinDay.
Qed.

Lemma localDay_UTC tl : keeps_day z -> localDay z (UTC z tl) = Day tl.
Proof. intros Hz. apply Hz. Qed.

Lemma localDay_setDate d k :
  keeps_day z -> localDay z (setDate z d (getDate z d + k)) = localDay z d + k.
Proof.
  intros Hz. rewrite setDate_getDate_plus, localDay_UTC by exact Hz.
  apply Day_plus_days.
Qed.

Lemma getDay_localDay d : getDay z d = (localDay z d + 4) mod 7.
Proof. reflexivity. Qed.

Lemma getDay_range d : 0 <= getDay z d < 7.
Proof. rewrite getDay_localDay. apply Z.mod_pos_bound. lia. Qed.

Lemma nextWeekdayOnOrAfter_rem d weekday :
  nextWeekdayOnOrAfter z d weekday
  = UTC z (LocalTime z d + Z.rem (weekday - getDay z d + 7) 7 * msPerDay).
Proof. unfold nextWeekdayOnOrAfter; cbv zeta. apply setDate_getDate_plus. Qed.

Lemma localDay_nextWeekdayOnOrAfter d weekday :
  keeps_day z ->
  localDay z (nextWeekdayOnOrAfter z d weekday)
  = localDay z d + Z.rem (weekday - getDay z d + 7) 7.
Proof.
  intros Hz. unfold nextWeekdayOnOrAfter; cbv zeta.
  now apply localDay_setDate.
Qed.

(** The offset of line 27, for a weekday in range. *)
Lemma diff_mod d weekday :
  0 <= weekday <= 6 ->
  Z.rem (weekday - getDay z d + 7) 7 = (weekday - getDay z d + 7) mod 7.
Proof.
  intros Hw. pose proof (getDay_range d).
  apply Z.rem_mod_nonneg; lia.
Qed.

(** The offset of [nextWeekdayOnOrAfter] and the day it lands on. *)
Lemma nextWeekdayOnOrAfter_offset baseDate weekday :
  keeps_day z ->
  0 <= weekday <= 6 ->
  let diff := (weekday - getDay z baseDate + 7) mod 7 in
  let r := nextWeekdayOnOrAfter z baseDate weekday in
  0 <= diff < 7 /\
  r = UTC z (LocalTime z baseDate + diff * msPerDay) /\
  localDay z r = localDay z baseDate + diff /\
  getDay z r = weekday.
Proof.
  intros Hz Hw diff r.
  assert (Hdiff : 0 <= diff < 7) by (apply Z.mod_pos_bound; lia).
  assert (Hr : r = UTC z (LocalTime z baseDate + diff * msPerDay)).
  { unfold r, diff. rewrite nextWeekdayOnOrAfter_rem, diff_mod by assumption.
    reflexivity. }
  assert (Hday : localDay z r = localDay z baseDate + diff).
  { unfold r, diff. rewrite localDay_nextWeekdayOnOrAfter, diff_mod by assumption.
    reflexivity. }
  repeat split; try assumption; try lia.
  rewrite getDay_localDay, Hday. subst diff.
  rewrite getDay_localDay in *.
  Z.div_mod_to_equations. lia.
Qed.

Lemma localDay_computeTargetClassDate w now :
  keeps_day z ->
  localDay z (computeTargetClassDate z w now)
  = localDay z now + 7
    + Z.rem (w - (localDay z now + 7 + 4) mod 7 + 7) 7.
Proof.
  intros Hz. unfold computeTargetClassDate; cbv zeta.
  rewrite localDay_nextWeekdayOnOrAfter by exact Hz.
  rewrite getDay_localDay, localDay_setDate by exact Hz.
  reflexivity.
Qed.

(** [computeOpenTimeForClass] is the reading of a local date and time. *)
Lemma computeOpenTimeForClass_UTC classDate h m s :
  keeps_day z ->
  computeOpenTimeForClass z classDate h m s
  = UTC z (MakeDate (localDay z classDate - 8) (MakeTime h m s 0)).
Proof.
  intros Hz. unfold computeOpenTimeForClass; cbv zeta.
  replace (getDate z classDate - 8) with (getDate z classDate + (-8)) by lia.
  unfold setHours; cbv zeta.
  fold (localDay z (setDate z classDate (getDate z classDate + -8))).
  rewrite localDay_setDate by exact Hz.
  reflexivity.
Qed.

(** C5, as amended. In a zone that keeps calendar days, for a weekday in
    0..6, [nextWeekdayOnOrAfter baseDate weekday] is the reading of
    [baseDate]'s local time moved forward by
    [(weekday - baseDate.weekday + 7) mod 7] calendar days, an offset in
    0..6; it falls on [weekday], and no date on or after [baseDate]'s
    calendar day with that weekday falls on an earlier calendar day. When
    [baseDate] already falls on [weekday] the result has the local date
    and time of [baseDate] and is not after it: it is [baseDate] itself
    whenever [baseDate] is the first instant with its local time. *)
Theorem nextWeekdayOnOrAfter_earliest baseDate weekday :
  keeps_day z ->
  resolves_back z ->
  0 <= weekday <= 6 ->
  let diff := (weekday - getDay z baseDate + 7) mod 7 in
  let r := nextWeekdayOnOrAfter z baseDate weekday in
  0 <= diff < 7 /\
  r = UTC z (LocalTime z baseDate + diff * msPerDay) /\
  localDay z r = localDay z baseDate + diff /\
  getDay z r = weekday /\
  (forall d, localDay z baseDate <= localDay z d -> getDay z d = weekday ->
             localDay z r <= localDay z d) /\
  (getDay z baseDate = weekday ->
   LocalTime z r = LocalTime z baseDate /\
   r <= baseDate /\
   (UTC z (LocalTime z baseDate) = baseDate -> r = baseDate)).
Proof.
  intros Hz Hb Hw diff r.
  destruct (nextWeekdayOnOrAfter_offset baseDate weekday Hz Hw)
    as (Hdiff & Hr & Hday & Hwd).
  fold diff in Hdiff, Hr, Hday. fold r in Hr, Hday, Hwd.
  split; [exact Hdiff |].
  split; [exact Hr |].
  split; [exact Hday |].
  split; [exact Hwd |].
  split.
  { intros d Hd Hd'.
    rewrite Hday. rewrite getDay_localDay in Hd'. subst diff.
    rewrite getDay_localDay in *.
    Z.div_mod_to_equations. lia. }
  intros Hsame.
  assert (E : diff = 0).
  { subst diff. rewrite Hsame.
    replace (weekday - weekday + 7) with 7 by lia. reflexivity. }
  rewrite E, Z.mul_0_l, Z.add_0_r in Hr.
  destruct (Hb baseDate) as [Hle Hloc].
  rewrite Hr. repeat split; [exact Hloc | exact Hle | trivial].
Qed.

(** C4, as amended. In a zone that keeps calendar days, for a weekday in
    0..6, [computeTargetClassDate targetWeekday now] is
    [nextWeekdayOnOrAfter] applied to [now] moved 7 calendar days forward;
    it falls on [targetWeekday], on a calendar day from 7 to 13 days after
    the day of [now]. In a zone without transitions it also lies between
    [now] plus 7 and [now] plus 13 days of 24 hours. *)
Theorem computeTargetClassDate_window targetWeekday now :
  keeps_day z ->
  0 <= targetWeekday <= 6 ->
  let r := computeTargetClassDate z targetWeekday now in
  r = nextWeekdayOnOrAfter z (setDate z now (getDate z now + 7)) targetWeekday /\
  getDay z r = targetWeekday /\
  localDay z now + 7 <= localDay z r <= localDay z now + 13 /\
  (transitions z = [] ->
   now + 7 * msPerDay <= r <= now + 13 * msPerDay).
Proof.
  intros Hz Hw r.
  assert (Hr : r = nextWeekdayOnOrAfter z (setDate z now (getDate z now + 7))
                     targetWeekday) by reflexivity.
  destruct (nextWeekdayOnOrAfter_offset (setDate z now (getDate z now + 7))
              targetWeekday Hz Hw) as (Hdiff & Heq & Hday & Hwd).
  cbv zeta in Hdiff, Heq, Hday, Hwd. rewrite <- Hr in Heq, Hday, Hwd.
  rewrite localDay_setDate in Hday by exact Hz.
  split; [exact Hr |]. split; [exact Hwd |]. split; [lia |].
  intros Hfixed. rewrite Heq, setDate_getDate_plus.
  repeat first [ rewrite no_transition_UTC by (exact Hfixed)
               | rewrite no_transition_LocalTime by (exact Hfixed) ].
  match goal with
  | |- context [?a mod 7] => pose proof (Z.mod_pos_bound a 7 ltac:(lia))
  end.
  unfold msPerDay in *. lia.
Qed.

(** C6, as amended. In a zone that keeps calendar days and resolves a
    local time to its first instant,
    [computeOpenTimeForClass classDate hour minute second] is the instant
    that the local date and time made of the calendar day 8 days before
    [classDate]'s and of the time [(hour, minute, second, 0)] stands for.
    Where that local time occurs, that is unless a transition skips it,
    the local time of the result is exactly that one, and for a clock time
    it reads [hour:minute:second.000]; for a clock time the result falls
    on that calendar day in any case. *)
Theorem computeOpenTimeForClass_eight_days_before classDate hour minute second :
  keeps_day z ->
  resolves_back z ->
  let wanted :=
    MakeDate (localDay z classDate - 8) (MakeTime hour minute second 0) in
  let openAt := computeOpenTimeForClass z classDate hour minute second in
  openAt = UTC z wanted /\
  (occurs z wanted -> LocalTime z openAt = wanted) /\
  (0 <= hour <= 23 -> 0 <= minute <= 59 -> 0 <= second <= 59 ->
   localDay z openAt = localDay z classDate - 8 /\
   (occurs z wanted ->
    HourFromTime (LocalTime z openAt) = hour /\
    MinFromTime (LocalTime z openAt) = minute /\
    SecFromTime (LocalTime z openAt) = second /\
    msFromTime (LocalTime z openAt) = 0)).
Proof.
  intros Hz Hb wanted openAt.
  assert (Ho : openAt = UTC z wanted)
    by (apply computeOpenTimeForClass_UTC; exact Hz).
  split; [exact Ho |].
  split; [intros Hocc; rewrite Ho; now apply occurs_resolved |].
  intros Hh Hm Hs.
  pose proof (clock_time_within_day hour minute second Hh Hm Hs) as Ht.
  split.
  - rewrite Ho, localDay_UTC by exact Hz. now apply Day_MakeDate.
  - intros Hocc. apply (occurs_resolved z wanted Hb) in Hocc.
    rewrite Ho, Hocc.
    unfold wanted.
    generalize (localDay z classDate - 8); intros D.
    unfold HourFromTime, MinFromTime, SecFromTime, msFromTime, MakeDate,
      MakeTime, msPerHour, msPerMinute, msPerSecond, msPerDay.
    repeat split; Z.div_mod_to_equations; lia.
Qed.

(** Readings of local times more than a day apart keep their order. *)
Lemma UTC_lt tl1 tl2 :
  day_spread z -> tl1 + msPerDay <= tl2 -> UTC z tl1 < UTC z tl2.
Proof.
  intros Hs Hlt.
  destruct (UTC_offset z tl1) as (o1 & H1 & ->).
  destruct (UTC_offset z tl2) as (o2 & H2 & ->).
  pose proof (Hs o2 o1 H2 H1). lia.
Qed.

Lemma openAt_before_day classDate h m s :
  day_spread z ->
  0 <= h <= 23 -> 0 <= m <= 59 -> 0 <= s <= 59 ->
  computeOpenTimeForClass z classDate h m s < startOfLocalDay z classDate /\
  computeOpenTimeForClass z classDate h m s < classDate.
Proof.
  intros Hs Hh Hm Hsec.
  pose proof (clock_time_within_day h m s Hh Hm Hsec) as Ht.
  unfold computeOpenTimeForClass; cbv zeta.
  replace (getDate z classDate - 8) with (getDate z classDate + (-8)) by lia.
  rewrite setDate_getDate_plus.
  unfold setHours, startOfLocalDay, localDay; cbv zeta.
  set (tl := LocalTime z classDate).
  set (c' := UTC z (tl + -8 * msPerDay)).
  assert (Hc' : Day (LocalTime z c') <= Day tl - 7).
  { destruct (UTC_offset z (tl + -8 * msPerDay)) as (o1 & H1 & E1).
    destruct (LocalTime_offset z c') as (o2 & H2 & E2).
    fold c' in E1. rewrite E2, E1.
    pose proof (Hs o2 o1 H2 H1).
    replace (Day tl - 7) with (Day (tl + -7 * msPerDay))
      by (rewrite Day_plus_days; lia).
    unfold Day. apply Z.div_le_mono; [reflexivity | unfold msPerDay in *; lia]. }
  set (D' := Day (LocalTime z c')) in *.
  assert (Htl : Day tl * msPerDay <= tl).
  { unfold Day. pose proof (Z.mul_div_le tl msPerDay ltac:(reflexivity)). lia. }
  split.
  - apply UTC_lt; [exact Hs |].
    unfold MakeDate, msPerDay in *. lia.
  - destruct (UTC_offset z (MakeDate D' (MakeTime h m s 0))) as (o3 & H3 & ->).
    destruct (LocalTime_offset z classDate) as (o0 & H0 & E0).
    fold tl in E0.
    pose proof (Hs o0 o3 H0 H3).
    unfold MakeDate, msPerDay in *. lia.
Qed.

End PlannerFacts.

(** C4, as stated, fails. In New York on Sunday 2026-03-01 at 10:00, with
    Sunday as target, the result is Sunday 2026-03-08 at 10:00, one hour
    less than 7 times 24 hours after [now]. Read with calendar days, the
    upper bound fails as well: on 2026-03-01 at 02:30 with Saturday as
    target, the result is 2026-03-14 at 03:30, after [now] moved 13
    calendar days forward. *)
Lemma computeTargetClassDate_outside_instants :
  (let now := 1772377200000 in
   let r := ESDate.computeTargetClassDate Demo.new_york_2026 0 now in
   ~ (now + 7 * ESDate.msPerDay <= r <= now + 13 * ESDate.msPerDay)) /\
  (let now := 1772350200000 in
   let r := ESDate.computeTargetClassDate Demo.new_york_2026 6 now in
   ~ (ESDate.setDate Demo.new_york_2026 now
        (ESDate.getDate Demo.new_york_2026 now + 7) <= r
      <= ESDate.setDate Demo.new_york_2026 now
           (ESDate.getDate Demo.new_york_2026 now + 13))).
Proof.
  split; cbv zeta; intros [Hlow Hhigh].
  - apply Hlow. vm_compute. reflexivity.
  - apply Hhigh. vm_compute. reflexivity.
Qed.

(** C4 as amended, in New York on Sunday 2026-03-01 at 10:00 with Sunday
    as target. *)
Lemma computeTargetClassDate_window_witness :
  ESDate.getDay Demo.new_york_2026
    (ESDate.computeTargetClassDate Demo.new_york_2026 0 1772377200000) = 0.
Proof.
  exact (proj1 (proj2 (computeTargetClassDate_window Demo.new_york_2026 0
                         1772377200000 new_york_keeps_day ltac:(lia)))).
Defined.

(** C5, as stated, fails. In New York on Sunday 2026-11-01 the hour from
    01:00 to 02:00 occurs twice; for [baseDate] at 01:30 in its second
    occurrence and Sunday as weekday, the result is 01:30 in the first
    occurrence: not [baseDate], and before it. *)
Lemma nextWeekdayOnOrAfter_not_unchanged :
  let baseDate := 1793514600000 in
  let r := ESDate.nextWeekdayOnOrAfter Demo.new_york_2026 baseDate 0 in
  ESDate.getDay Demo.new_york_2026 baseDate = 0 /\
  r <> baseDate /\ ~ (baseDate <= r).
Proof.
  cbv zeta. split; [vm_compute; reflexivity |].
  split.
  - vm_compute. discriminate.
  - intros H. apply H. vm_compute. reflexivity.
Qed.

(** C5 as amended, in New York from Saturday 2026-03-07 at 10:00 to
    Sunday. *)
Lemma nextWeekdayOnOrAfter_earliest_witness :
  ESDate.getDay Demo.new_york_2026
    (ESDate.nextWeekdayOnOrAfter Demo.new_york_2026 1772895600000 0) = 0.
Proof.
  exact (proj1 (proj2 (proj2 (proj2
           (nextWeekdayOnOrAfter_earliest Demo.new_york_2026 1772895600000 0
              new_york_keeps_day new_york_resolves_back ltac:(lia)))))).
Defined.

(** C6, as stated, fails. In New York, for a class on Monday 2026-03-16
    and the time 02:30:00, the day 8 days before is Sunday 2026-03-08, on
    which 02:30 is skipped: the result reads 03:30. *)
Lemma computeOpenTimeForClass_skipped_time :
  let classDate := 20528 * ESDate.msPerDay + 15 * ESDate.msPerHour in
  let openAt :=
    ESDate.computeOpenTimeForClass Demo.new_york_2026 classDate 2 30 0 in
  ESDate.HourFromTime (ESDate.LocalTime Demo.new_york_2026 openAt) <> 2 /\
  ESDate.LocalTime Demo.new_york_2026 openAt
  <> ESDate.MakeDate (ESDate.localDay Demo.new_york_2026 classDate - 8)
       (ESDate.MakeTime 2 30 0 0).
Proof.
  cbv zeta. split; vm_compute; discriminate.
Qed.

(** C6 as amended, in New York for a class on Monday 2026-03-02 and the
    time 20:00:00: Sunday 2026-02-22 at 20:00:00, which is 2026-02-23 at
    01:00 UTC. *)
Lemma computeOpenTimeForClass_eight_days_before_witness :
  ESDate.occurs Demo.new_york_2026
    (ESDate.MakeDate (ESDate.localDay Demo.new_york_2026 1772499510000 - 8)
       (ESDate.MakeTime 20 0 0 0)) /\
  ESDate.computeOpenTimeForClass Demo.new_york_2026 1772499510000 20 0 0
  = 1771808400000 /\
  ESDate.HourFromTime
    (ESDate.LocalTime Demo.new_york_2026
       (ESDate.computeOpenTimeForClass Demo.new_york_2026 1772499510000
          20 0 0)) = 20.
Proof.
  assert (Hocc : ESDate.occurs Demo.new_york_2026
                   (ESDate.MakeDate
                      (ESDate.localDay Demo.new_york_2026 1772499510000 - 8)
                      (ESDate.MakeTime 20 0 0 0)))
    by (exists 1771808400000; vm_compute; reflexivity).
  split; [exact Hocc |].
  pose proof (computeOpenTimeForClass_eight_days_before Demo.new_york_2026
                1772499510000 20 0 0 new_york_keeps_day
                new_york_resolves_back) as (Heq & _ & Hclock).
  split.
  - rewrite Heq. vm_compute. reflexivity.
  - exact (proj1 (proj2 (Hclock ltac:(lia) ltac:(lia) ltac:(lia)) Hocc)).
Defined.

(** Scenario A of the specification, in UTC: on Sunday 2026-02-22 the
    target Monday is 2026-03-02 and booking opens on 2026-02-22 at 20:00. *)
Example scenario_A :
  let now := 20506 * ESDate.msPerDay + 10 * ESDate.msPerHour in
  let classDate := ESDate.computeTargetClassDate (ESDate.fixed 0) 1 now in
  let openAt :=
    ESDate.computeOpenTimeForClass (ESDate.fixed 0) classDate 20 0 0 in
  Text.toISODate (ESDate.fixed 0) now = "2026-02-22"%string /\
  ESDate.getDay (ESDate.fixed 0) now = 0 /\
  Text.toISODate (ESDate.fixed 0) classDate = "2026-03-02"%string /\
  ESDate.getDay (ESDate.fixed 0) classDate = 1 /\
  Text.toISODate (ESDate.fixed 0) openAt = "2026-02-22"%string /\
  ESDate.HourFromTime openAt = 20 /\
  ESDate.TimeWithinDay openAt = 20 * ESDate.msPerHour.
Proof. vm_compute. repeat split. Qed.

(** C7, as stated, fails. With an opening time of 0 hours, 11520 minutes
    and 0 seconds, [setHours] carries the minutes over into eight days,
    and [openAt] is the very start of [classDate]'s calendar day. *)
Lemma openAt_not_before_with_long_minute :
  0 <= Flow.hour (Flow.OPEN_TIME Rest.K_rollover) <= 23 /\
  match fst (Flow.session_window (Demo.surface None) Rest.K_rollover
               Flow.initial) with
  | Flow.Ok (classDate, openAt) =>
      ~ (openAt < ESDate.startOfLocalDay Demo.new_york_2026 classDate)
  | _ => False
  end.
Proof.
  split; [cbn; lia |].
  vm_compute. discriminate.
Qed.

(** C7, as amended. With [OPEN_TIME] a clock time (hour in 0..23, minute
    and second in 0..59), in a zone whose offsets differ by less than a
    day, the session window the script computes has [openAt] strictly
    before the start of [classDate]'s calendar day, and before
    [classDate]. *)
Theorem openAt_before_classDate_day env K s classDate openAt s' :
  ESDate.day_spread (Flow.time_zone env) ->
  0 <= Flow.hour (Flow.OPEN_TIME K) <= 23 ->
  0 <= Flow.minute (Flow.OPEN_TIME K) <= 59 ->
  0 <= Flow.second (Flow.OPEN_TIME K) <= 59 ->
  Flow.session_window env K s = (Flow.Ok (classDate, openAt), s') ->
  openAt < ESDate.startOfLocalDay (Flow.time_zone env) classDate /\
  openAt < classDate.
Proof.
  intros Hz Hh Hm Hs Hw.
  unfold Flow.session_window, Flow.bind, Flow.now, Flow.ret in Hw.
  injection Hw as Hc Ho _.
  rewrite <- Ho, Hc.
  apply openAt_before_day; assumption.
Qed.

(** C7 as amended, on the demonstration surface: the window computed in
    New York on Sunday 2026-02-22 at 19:58:30. *)
Lemma openAt_before_classDate_day_witness :
  1771808400000 < ESDate.startOfLocalDay Demo.new_york_2026 1772499510000.
Proof.
  refine (proj1 (openAt_before_classDate_day (Demo.surface None) Demo.K0
                   Flow.initial 1772499510000 1771808400000 _
                   new_york_day_spread _ _ _ _)).
  - simpl; lia.
  - simpl; lia.
  - simpl; lia.
  - vm_compute. reflexivity.
Defined.

(* ================================================================== *)
(** ** Theorems: the card matcher and the schedule URL *)
(* ================================================================== *)

Section TextFacts.

Import Text.
Local Open Scope string_scope.

Lemma startsWith_prefix text s :
  startsWith text s = true <-> exists after, text = s ++ after.
Proof.
  revert text. induction s as [| c s IH]; intros text; simpl.
  - split; [intros _; now exists text | reflexivity].
  - destruct text as [| d text].
    + split; [discriminate | intros [after H]; discriminate].
    + rewrite andb_true_iff, IH, Ascii.eqb_eq. split.
      * intros [-> [after ->]]. now exists after.
      * intros [after H]. injection H as -> ->. split; [reflexivity | now exists after].
Qed.

Lemma includes_occurs_in text s :
  includes text s = true <-> occurs_in s text.
Proof.
  unfold occurs_in.
  induction text as [| d text IH].
  - cbn [includes]. rewrite orb_false_r, startsWith_prefix. split.
    + intros [after H]. exists EmptyString, after. exact H.
    + intros [[| c before] [after H]].
      * now exists after.
      * discriminate.
  - cbn [includes]. rewrite orb_true_iff, startsWith_prefix, IH. split.
    + intros [[after H] | (before & after & H)].
      * exists EmptyString, after. exact H.
      * exists (String d before), after. simpl. now rewrite H.
    + intros [[| c before] [after H]].
      * left. now exists after.
      * right. simpl in H. injection H as _ H. now exists before, after.
Qed.

(** C9. [cardMatches text criteria] is true exactly when every string of
    [criteria] is a substring of [text]; it is false as soon as one is not,
    true for no criteria at all, and unchanged when the criteria are
    reordered. *)
Theorem cardMatches_all_substrings text criteria :
  (cardMatches text criteria = true <->
   forall s, In s criteria -> occurs_in s text) /\
  ((exists s, In s criteria /\ ~ occurs_in s text) ->
   cardMatches text criteria = false) /\
  cardMatches text [] = true /\
  (forall criteria', Permutation criteria criteria' ->
                     cardMatches text criteria' = cardMatches text criteria).
Proof.
  assert (Hiff : forall l, cardMatches text l = true <->
                           forall s, In s l -> occurs_in s text).
  { intros l. unfold cardMatches, every. rewrite forallb_forall.
    split; intros H s Hs; apply includes_occurs_in, H, Hs. }
  split; [apply Hiff |].
  split.
  { intros (s & Hs & Hno).
    destruct (cardMatches text criteria) eqn:E; [| reflexivity].
    exfalso. apply Hno. rewrite Hiff in E. now apply E. }
  split; [reflexivity |].
  intros criteria' Hp.
  destruct (cardMatches text criteria) eqn:E.
  - apply Hiff. intros s Hs. rewrite Hiff in E. apply E.
    apply Permutation_in with (l := criteria'); [now apply Permutation_sym | exact Hs].
  - destruct (cardMatches text criteria') eqn:E'; [| reflexivity].
    rewrite <- E. symmetry. apply Hiff. intros s Hs. rewrite Hiff in E'.
    apply E'. now apply Permutation_in with (l := criteria).
Qed.

(** C9 on a card of the schedule, with the criteria swapped. *)
Lemma cardMatches_all_substrings_witness :
  Permutation ["Pickleball"; "8:00"] ["8:00"; "Pickleball"] /\
  cardMatches "8:00 - 10:00 PM Pickleball Open Play" ["8:00"; "Pickleball"]
  = cardMatches "8:00 - 10:00 PM Pickleball Open Play" ["Pickleball"; "8:00"].
Proof.
  split; [apply perm_swap |].
  exact (proj2 (proj2 (proj2 (cardMatches_all_substrings
           "8:00 - 10:00 PM Pickleball Open Play" ["Pickleball"; "8:00"])))
           ["8:00"; "Pickleball"] (perm_swap _ _ _)).
Defined.

Lemma all_chars_app p a b :
  Rest.all_chars p (a ++ b) = Rest.all_chars p a && Rest.all_chars p b.
Proof.
  induction a as [| c a IH]; cbn [append Rest.all_chars].
  - reflexivity.
  - now rewrite IH, andb_assoc.
Qed.

Lemma append_assoc a b c : (a ++ b) ++ c = a ++ b ++ c.
Proof. induction a as [| x a IH]; cbn [append]; [reflexivity | now rewrite IH]. Qed.

Lemma urlencode_cons c s :
  urlencode (String c s) = urlencode (String c EmptyString) ++ urlencode s.
Proof.
  cbn [urlencode].
  destruct (urlencoded_keep c); [reflexivity |].
  destruct (N_of_ascii c =? 32)%N; reflexivity.
Qed.

(** The serialiser writes neither [&] nor [=], and the parser reads back
    what it wrote. *)
Lemma urlencode_char_free c :
  Rest.free_of "&" (urlencode (String c EmptyString)) = true /\
  Rest.free_of "=" (urlencode (String c EmptyString)) = true.
Proof.
  destruct c as [[] [] [] [] [] [] [] []]; vm_compute; split; reflexivity.
Qed.

Lemma urlencode_free s :
  Rest.free_of "&" (urlencode s) = true /\
  Rest.free_of "=" (urlencode s) = true.
Proof.
  induction s as [| c s [IH1 IH2]]; [split; reflexivity |].
  destruct (urlencode_char_free c) as [H1 H2].
  unfold Rest.free_of in *.
  rewrite urlencode_cons, !all_chars_app, H1, H2, IH1, IH2.
  split; reflexivity.
Qed.

Lemma urldecode_urlencode_char c rest :
  urldecode (urlencode (String c EmptyString) ++ rest)
  = String c (urldecode rest).
Proof.
  destruct c as [[] [] [] [] [] [] [] []]; reflexivity.
Qed.

Lemma urldecode_urlencode s : urldecode (urlencode s) = s.
Proof.
  induction s as [| c s IH]; [reflexivity |].
  now rewrite urlencode_cons, urldecode_urlencode_char, IH.
Qed.

Lemma split_on_app sep a rest :
  Rest.free_of sep a = true ->
  split_on sep (a ++ String sep rest) = a :: split_on sep rest.
Proof.
  unfold Rest.free_of.
  induction a as [| c a IH]; cbn [append split_on Rest.all_chars]; intros H.
  - now rewrite Ascii.eqb_refl.
  - apply andb_true_iff in H. destruct H as [Hc Ha].
    apply negb_true_iff in Hc. rewrite Hc, (IH Ha). reflexivity.
Qed.

Lemma split_on_free sep a :
  Rest.free_of sep a = true -> split_on sep a = [a].
Proof.
  unfold Rest.free_of.
  induction a as [| c a IH]; cbn [split_on Rest.all_chars]; intros H.
  - reflexivity.
  - apply andb_true_iff in H. destruct H as [Hc Ha].
    apply negb_true_iff in Hc. rewrite Hc, (IH Ha). reflexivity.
Qed.

Lemma split_first_app sep a b :
  Rest.free_of sep a = true ->
  split_first sep (a ++ String sep b) = (a, b).
Proof.
  unfold Rest.free_of.
  induction a as [| c a IH]; cbn [append split_first Rest.all_chars]; intros H.
  - now rewrite Ascii.eqb_refl.
  - apply andb_true_iff in H. destruct H as [Hc Ha].
    apply negb_true_iff in Hc. rewrite Hc, (IH Ha). reflexivity.
Qed.

Lemma piece_free n v :
  Rest.free_of "&" (urlencode n ++ String "=" (urlencode v)) = true.
Proof.
  destruct (urlencode_free n) as [Hn _], (urlencode_free v) as [Hv _].
  unfold Rest.free_of in *.
  rewrite all_chars_app. cbn [Rest.all_chars]. rewrite Hn, Hv. reflexivity.
Qed.

Lemma toString_cons n v p l :
  toString ((n, v) :: p :: l)
  = (urlencode n ++ String "=" (urlencode v)) ++ String "&" (toString (p :: l)).
Proof. rewrite append_assoc. reflexivity. Qed.

Lemma split_toString p l :
  split_on "&" (toString (p :: l))
  = map (fun q => urlencode (fst q) ++ String "=" (urlencode (snd q))) (p :: l).
Proof.
  revert p. induction l as [| p' l IH]; intros [n v].
  - cbn [toString map fst snd]. apply split_on_free.
    change ("=" ++ urlencode v) with (String "=" (urlencode v)).
    apply piece_free.
  - rewrite toString_cons, split_on_app by apply piece_free.
    rewrite IH. reflexivity.
Qed.

(** Parsing a serialised list of parameters gives the list back. *)
Lemma parse_toString l : parse (toString l) = l.
Proof.
  destruct l as [| p l]; [reflexivity |].
  unfold parse. rewrite split_toString.
  generalize (p :: l). clear p l. intros l.
  induction l as [| [n v] l IH]; [reflexivity |].
  cbn [map fst snd filter].
  assert (Hne : String.eqb (urlencode n ++ String "=" (urlencode v)) EmptyString
                = false).
  { destruct (urlencode n); reflexivity. }
  rewrite Hne. cbn [negb map].
  rewrite split_first_app by apply urlencode_free.
  rewrite !urldecode_urlencode, IH. reflexivity.
Qed.

(** C10, as amended. [buildScheduleUrl] throws exactly when [selectedDate]
    is falsy (absent or empty). Otherwise it returns the club path, a
    question mark and a query that parses as these parameters, in this
    order and with these values: [teamMemberView=true] when that option is
    true or absent, then [mode], [selectedDate], [interest] and
    [location], an absent option at its default. So [teamMemberView=true]
    is included exactly when the [teamMemberView] option is truthy or
    absent. *)
Theorem buildScheduleUrl_query (o : ScheduleOptions) :
  ((exists e, buildScheduleUrl o = inl e) <->
   truthyString (selectedDate o) = false) /\
  (truthyString (selectedDate o) = false ->
   buildScheduleUrl o
   = inl (Error "buildScheduleUrl requires selectedDate (YYYY-MM-DD)")) /\
  (forall date, selectedDate o = Some date -> date <> EmptyString ->
   exists query,
     buildScheduleUrl o
     = inr (withDefault
              "https://my.lifetime.life/clubs/va/fairfax/classes.html"
              (clubPath o) ++ "?" ++ query) /\
     parse query
     = ((if withDefault true (teamMemberView o)
         then [("teamMemberView", "true")] else [])
        ++ [("mode", withDefault "week" (mode o));
            ("selectedDate", date);
            ("interest", withDefault "Pickleball Open Play" (interest o));
            ("location", withDefault "Fairfax" (location o))])%list /\
     (In ("teamMemberView", "true") (parse query) <->
      truthyBool (teamMemberView o) = true \/ teamMemberView o = None)).
Proof.
  unfold buildScheduleUrl.
  destruct (truthyString (selectedDate o)) eqn:Ht; cbn [negb].
  - split; [split; [intros [e H]; discriminate | discriminate] |].
    split; [discriminate |].
    intros date Hd Hne. rewrite Hd. cbn [withDefault].
    eexists. split; [reflexivity |].
    rewrite parse_toString.
    destruct (teamMemberView o) as [[] |]; cbn.
    + split; [reflexivity |]. split; [intros _; now left | intros _; now left].
    + split; [reflexivity |]. split.
      * intros [H | [H | [H | [H | []]]]]; discriminate.
      * intros [H | H]; discriminate.
    + split; [reflexivity |]. split; [intros _; now right | intros _; now left].
  - split; [split; [reflexivity | intros _; eexists; reflexivity] |].
    split; [reflexivity |].
    intros date Hd Hne. rewrite Hd in Ht. cbn in Ht.
    apply negb_false_iff, String.eqb_eq in Ht. contradiction.
Qed.

End TextFacts.

(** C10, as stated, fails. Without a [teamMemberView] option, which is
    [undefined] and so not truthy, the query still holds
    [teamMemberView=true]. *)
Lemma teamMemberView_included_when_absent :
  let o := {| Text.clubPath := None;
              Text.selectedDate := Some "2026-03-02"%string;
              Text.location := None; Text.interest := None;
              Text.mode := None; Text.teamMemberView := None |} in
  Text.truthyBool (Text.teamMemberView o) = false /\
  Text.buildScheduleUrl o
  = inr ("https://my.lifetime.life/clubs/va/fairfax/classes.html?"
         ++ "teamMemberView=true&mode=week&selectedDate=2026-03-02"
         ++ "&interest=Pickleball+Open+Play&location=Fairfax")%string /\
  ~ (In ("teamMemberView"%string, "true"%string)
        (Text.parse ("teamMemberView=true&mode=week&selectedDate=2026-03-02"
                     ++ "&interest=Pickleball+Open+Play&location=Fairfax")%string)
     <-> Text.truthyBool (Text.teamMemberView o) = true).
Proof.
  cbv zeta. split; [reflexivity |]. split; [reflexivity |].
  intros [H _]. cbn in H. discriminate H. now left.
Qed.

(** C10 as amended, with a location that needs escaping and
    [teamMemberView] switched off. *)
Lemma buildScheduleUrl_query_witness :
  exists query,
    Text.buildScheduleUrl
      {| Text.clubPath := None; Text.selectedDate := Some "2026-03-02"%string;
         Text.location := Some "Fairfax & Reston = 100%"%string;
         Text.interest := None; Text.mode := None;
         Text.teamMemberView := Some false |}
    = inr ("https://my.lifetime.life/clubs/va/fairfax/classes.html?"
           ++ query)%string /\
    Text.parse query
    = [("mode", "week"); ("selectedDate", "2026-03-02");
       ("interest", "Pickleball Open Play");
       ("location", "Fairfax & Reston = 100%")]%string.
Proof.
  destruct (proj2 (proj2 (buildScheduleUrl_query
              {| Text.clubPath := None;
                 Text.selectedDate := Some "2026-03-02"%string;
                 Text.location := Some "Fairfax & Reston = 100%"%string;
                 Text.interest := None; Text.mode := None;
                 Text.teamMemberView := Some false |}))
              "2026-03-02"%string eq_refl ltac:(discriminate))
    as (query & Hurl & Hparse & _).
  exists query. split; [exact Hurl | exact Hparse].
Defined.

(* ================================================================== *)
(** ** Theorems: the reservation flow *)
(* ================================================================== *)

Section FlowFacts.

Import Text Flow.
Local Open Scope string_scope.
Local Open Scope list_scope.

Variable env : Env.
Variable K : Constants.

Lemma bind_Ok_inv {A B : Type} (m : M A) (k : A -> M B) s b s' :
  bind m k s = (Ok b, s') ->
  exists a s1, m s = (Ok a, s1) /\ k a s1 = (Ok b, s').
Proof.
  unfold bind. destruct (m s) as [[a | e |] s1]; intros H.
  - now exists a, s1.
  - discriminate.
  - discriminate.
Qed.

Lemma bind_Ok {A B : Type} (m : M A) (k : A -> M B) s a s1 :
  m s = (Ok a, s1) -> bind m k s = k a s1.
Proof. intros H. unfold bind. now rewrite H. Qed.

Lemma bind_Throw {A B : Type} (m : M A) (k : A -> M B) s e s1 :
  m s = (Throw e, s1) -> bind m k s = (Throw e, s1).
Proof. intros H. unfold bind. now rewrite H. Qed.

Lemma try_finally_bind_Ok {A B : Type} (m : M A) (k : A -> M B) fin s a s1 :
  m s = (Ok a, s1) ->
  try_finally (bind m k) fin s = try_finally (k a) fin s1.
Proof. intros H. unfold try_finally. now rewrite (bind_Ok _ _ _ _ _ H). Qed.

(** Once the attempt is reached, what is left of the script is the [try]
    block from the attempt on, the [finally] and the top-level [catch]. *)
Lemma main_from_attempt fuel s0 s1 :
  reaches_attempt env K fuel s0 s1 ->
  main env K fuel s0
  = top_level_catch
      (try_finally (run_reserve env K fuel) (do env BrowserClose) s1).
Proof.
  unfold reaches_attempt. intros H.
  destruct (bind_Ok_inv _ _ _ _ _ H) as (w & sA & Hw & H1).
  destruct (bind_Ok_inv _ _ _ _ _ H1) as (url & sB & Hpre & Hent).
  unfold main. f_equal.
  rewrite (bind_Ok _ _ _ _ _ Hw). unfold run.
  rewrite (bind_Ok _ _ _ _ _ Hpre).
  now rewrite (try_finally_bind_Ok _ _ _ _ _ _ Hent).
Qed.

Lemma isVisibleOrFalse_probe l s :
  isVisibleOrFalse env l s
  = (Ok (probe env (calls s) l), record (LocIsVisible l) s).
Proof.
  unfold isVisibleOrFalse, try_catch, ask_bool, of_sum, probe.
  destruct (answer_bool env (calls s) (LocIsVisible l)); reflexivity.
Qed.

Lemma reload_swallowed s :
  try_catch (do env (Reload "domcontentloaded")) (fun _ => ret tt) s
  = (Ok tt, record (Reload "domcontentloaded") s).
Proof.
  unfold try_catch, do, ret.
  destruct (settle env (calls s) (Reload "domcontentloaded")); reflexivity.
Qed.

Lemma poll_unfold fuel start s :
  poll env K (S fuel) start s
  = if (clock env (calls s) - start <? RESERVE_MAX_WAIT_MS K)%Z then
      bind (isVisibleOrFalse env reserveBtn)
        (fun rv =>
           if rv then
             bind (print (Log "Reserve visible. Clicking Reserve..." NoArg))
               (fun _ => bind (do env (LocClick reserveBtn))
               (fun _ => bind (print (Log "Waiting for Finish..." NoArg))
               (fun _ => bind (do env (LocWaitFor finishBtn "visible" 15000))
               (fun _ => bind (do env (LocClick finishBtn))
               (fun _ => bind (print (Log "Finish clicked. Reservation complete." NoArg))
               (fun _ => ret tt))))))
           else
             bind (isVisibleOrFalse env waitlistBtn)
               (fun wv =>
                  if wv then
                    bind (print waitlisted_line) (fun _ => ret tt)
                  else
                    bind (sleep (RESERVE_RETRY_MS K))
                      (fun _ =>
                         bind (try_catch (do env (Reload "domcontentloaded"))
                                 (fun _ => ret tt))
                           (fun _ => poll env K fuel start))))
        (record DateNow s)
    else (Throw timed_out, record DateNow s).
Proof.
  cbn [poll]. unfold bind at 1. unfold now.
  destruct (clock env (calls s) - start <? RESERVE_MAX_WAIT_MS K)%Z; reflexivity.
Qed.

Lemma poll_timeout fuel start s :
  RESERVE_MAX_WAIT_MS K <= clock env (calls s) - start ->
  poll env K (S fuel) start s = (Throw timed_out, record DateNow s).
Proof.
  intros H. rewrite poll_unfold.
  destruct (Z.ltb_spec (clock env (calls s) - start) (RESERVE_MAX_WAIT_MS K));
    [lia | reflexivity].
Qed.

Lemma poll_waitlisted fuel start s :
  clock env (calls s) - start < RESERVE_MAX_WAIT_MS K ->
  probe env (calls s ++ [DateNow]) reserveBtn = false ->
  probe env (calls s ++ [DateNow; LocIsVisible reserveBtn]) waitlistBtn = true ->
  poll env K (S fuel) start s
  = (Ok tt,
     {| calls := calls s ++ [DateNow; LocIsVisible reserveBtn;
                             LocIsVisible waitlistBtn];
        console := console s ++ [waitlisted_line] |}).
Proof.
  intros Ht Hr Hw. rewrite poll_unfold.
  destruct (Z.ltb_spec (clock env (calls s) - start) (RESERVE_MAX_WAIT_MS K));
    [| lia].
  unfold bind at 1. rewrite isVisibleOrFalse_probe. cbn [record calls].
  rewrite Hr.
  unfold bind at 1. rewrite isVisibleOrFalse_probe. cbn [record calls console].
  rewrite <- app_assoc. cbn [app]. rewrite Hw.
  unfold bind, print, ret, record. cbn [calls console].
  rewrite <- !app_assoc. reflexivity.
Qed.

Lemma poll_retry fuel start s :
  clock env (calls s) - start < RESERVE_MAX_WAIT_MS K ->
  probe env (calls s ++ [DateNow]) reserveBtn = false ->
  probe env (calls s ++ [DateNow; LocIsVisible reserveBtn]) waitlistBtn = false ->
  poll env K (S fuel) start s
  = poll env K fuel start
      {| calls := calls s ++ [DateNow; LocIsVisible reserveBtn;
                              LocIsVisible waitlistBtn;
                              SetTimeout (RESERVE_RETRY_MS K);
                              Reload "domcontentloaded"];
         console := console s |}.
Proof.
  intros Ht Hr Hw. rewrite poll_unfold.
  destruct (Z.ltb_spec (clock env (calls s) - start) (RESERVE_MAX_WAIT_MS K));
    [| lia].
  unfold bind at 1. rewrite isVisibleOrFalse_probe. cbn [record calls].
  rewrite Hr.
  unfold bind at 1. rewrite isVisibleOrFalse_probe. cbn [record calls console].
  rewrite <- app_assoc. cbn [app]. rewrite Hw.
  unfold bind at 1. unfold sleep.
  unfold bind at 1. rewrite reload_swallowed.
  unfold record. cbn [calls console].
  rewrite <- !app_assoc. reflexivity.
Qed.

Lemma clickReserveAndFinish_unfold fuel s :
  clickReserveAndFinish env K fuel s
  = poll env K fuel (clock env (calls s)) (record DateNow s).
Proof. reflexivity. Qed.

(** What the script does after an attempt that returned normally: the
    line "Done.", the one-second wait, the [finally] and the exit code. *)
Lemma main_after_return fuel s0 s1 s2 :
  reaches_attempt env K fuel s0 s1 ->
  clickReserveAndFinish env K fuel s1 = (Ok tt, s2) ->
  main env K fuel s0
  = top_level_catch
      (match settle env (calls s2) (WaitForTimeout 1000),
             settle env (calls s2 ++ [WaitForTimeout 1000]) BrowserClose with
       | _, Some e => Throw e
       | Some e, None => Throw e
       | None, None => Ok tt
       end,
       {| calls := calls s2 ++ [WaitForTimeout 1000; BrowserClose];
          console := console s2 ++ [Log "Done." NoArg] |}).
Proof.
  intros Hreach Hret.
  rewrite (main_from_attempt _ _ _ Hreach). f_equal.
  unfold try_finally, run_reserve.
  rewrite (bind_Ok _ _ _ _ _ Hret).
  unfold bind, print, do, record. cbn [calls console].
  rewrite <- app_assoc. cbn [app].
  destruct (settle env (calls s2) (WaitForTimeout 1000));
    destruct (settle env (calls s2 ++ [WaitForTimeout 1000]) BrowserClose);
    reflexivity.
Qed.

(** C1, as amended. When the attempt ends waitlisted, that is when
    [clickReserveAndFinish] returns normally and the last line on the
    console is the waitlisted one, the exit code is 0; it is 1 only when
    the one-second wait or the closing of the browser that follow fail. *)
Theorem waitlisted_exit_code fuel s0 s1 s2 :
  reaches_attempt env K fuel s0 s1 ->
  clickReserveAndFinish env K fuel s1 = (Ok tt, s2) ->
  last (console s2) (Log EmptyString NoArg) = waitlisted_line ->
  fst (main env K fuel s0)
  = Some (match settle env (calls s2) (WaitForTimeout 1000),
                settle env (calls s2 ++ [WaitForTimeout 1000]) BrowserClose with
          | None, None => 0
          | _, _ => 1
          end).
Proof.
  intros Hreach Hret _.
  rewrite (main_after_return _ _ _ _ Hreach Hret).
  destruct (settle env (calls s2) (WaitForTimeout 1000));
    destruct (settle env (calls s2 ++ [WaitForTimeout 1000]) BrowserClose);
    reflexivity.
Qed.

(** C2. When the first polling iteration finds the reserve control not
    visible and the waitlist indicator visible, [clickReserveAndFinish]
    returns normally after the two clock readings and the two probes alone
    (no click, no timer, no reload, no second iteration), and, the
    one-second wait and the closing of the browser succeeding, the script
    ends with exit code 0 and no error line. *)
Theorem waitlisted_on_first_poll fuel s0 s1 :
  reaches_attempt env K (S fuel) s0 s1 ->
  clock env (calls s1 ++ [DateNow]) - clock env (calls s1)
  < RESERVE_MAX_WAIT_MS K ->
  probe env (calls s1 ++ [DateNow; DateNow]) reserveBtn = false ->
  probe env (calls s1 ++ [DateNow; DateNow; LocIsVisible reserveBtn])
        waitlistBtn = true ->
  settle env (calls s1 ++ [DateNow; DateNow; LocIsVisible reserveBtn;
                           LocIsVisible waitlistBtn])
         (WaitForTimeout 1000) = None ->
  settle env (calls s1 ++ [DateNow; DateNow; LocIsVisible reserveBtn;
                           LocIsVisible waitlistBtn; WaitForTimeout 1000])
         BrowserClose = None ->
  clickReserveAndFinish env K (S fuel) s1
  = (Ok tt,
     {| calls := calls s1 ++ [DateNow; DateNow; LocIsVisible reserveBtn;
                              LocIsVisible waitlistBtn];
        console := console s1 ++ [waitlisted_line] |}) /\
  main env K (S fuel) s0
  = (Some 0,
     {| calls := calls s1 ++ [DateNow; DateNow; LocIsVisible reserveBtn;
                              LocIsVisible waitlistBtn; WaitForTimeout 1000;
                              BrowserClose];
        console := console s1 ++ [waitlisted_line; Log "Done." NoArg] |}).
Proof.
  intros Hreach Ht Hr Hw Hwait Hclose.
  assert (Hret : clickReserveAndFinish env K (S fuel) s1
                 = (Ok tt,
                    {| calls := calls s1 ++ [DateNow; DateNow;
                                             LocIsVisible reserveBtn;
                                             LocIsVisible waitlistBtn];
                       console := console s1 ++ [waitlisted_line] |})).
  { rewrite clickReserveAndFinish_unfold, poll_waitlisted.
    - unfold record. cbn [calls console]. now rewrite <- app_assoc.
    - exact Ht.
    - unfold record. cbn [calls]. now rewrite <- app_assoc.
    - unfold record. cbn [calls]. now rewrite <- app_assoc. }
  split; [exact Hret |].
  rewrite (main_after_return _ _ _ _ Hreach Hret). cbn [calls console].
  rewrite <- !app_assoc. cbn [app].
  rewrite Hwait, Hclose. reflexivity.
Qed.

Lemma clock_advances_many h0 :
  clock_advances env h0 ->
  forall cs h,
    clock env (h0 ++ h) + fold_right Z.add 0 (map min_duration cs)
    <= clock env (h0 ++ h ++ cs).
Proof.
  intros Hadv cs. induction cs as [| c cs IH]; intros h.
  - rewrite app_nil_r. cbn. lia.
  - specialize (IH (h ++ [c])%list). specialize (Hadv h c).
    rewrite <- app_assoc in IH. cbn [app] in IH. cbn [map fold_right]. lia.
Qed.

(** The polling loop under a clock that advances and a page that never
    shows either control: with [n] retry intervals left before the
    deadline and more than [n] units of fuel, it throws the timeout error
    right after a clock reading at or past the deadline. *)
Lemma poll_times_out h0 start :
  0 < RESERVE_RETRY_MS K ->
  clock_advances env h0 ->
  never_visible env h0 reserveBtn ->
  never_visible env h0 waitlistBtn ->
  forall n fuel s h,
    calls s = h0 ++ h ->
    RESERVE_MAX_WAIT_MS K - (clock env (calls s) - start)
    <= Z.of_nat n * RESERVE_RETRY_MS K ->
    (n < fuel)%nat ->
    exists h',
      poll env K fuel start s
      = (Throw timed_out,
         {| calls := h0 ++ h' ++ [DateNow]; console := console s |}) /\
      RESERVE_MAX_WAIT_MS K <= clock env (h0 ++ h') - start.
Proof.
  intros Hretry Hadv Hres Hwl.
  assert (Hstop : forall fuel s h,
             calls s = h0 ++ h ->
             RESERVE_MAX_WAIT_MS K <= clock env (calls s) - start ->
             exists h',
               poll env K (S fuel) start s
               = (Throw timed_out,
                  {| calls := h0 ++ h' ++ [DateNow]; console := console s |}) /\
               RESERVE_MAX_WAIT_MS K <= clock env (h0 ++ h') - start).
  { intros fuel s h Hs Hlate. exists h. split.
    - rewrite poll_timeout by exact Hlate.
      unfold record. now rewrite Hs, <- app_assoc.
    - now rewrite <- Hs. }
  induction n as [| n IH]; intros fuel s h Hs Hleft Hfuel;
    (destruct fuel as [| fuel]; [lia |]).
  - apply (Hstop fuel s h Hs). lia.
  - destruct (Z.lt_ge_cases (clock env (calls s) - start) (RESERVE_MAX_WAIT_MS K))
      as [Hin | Hlate]; [| exact (Hstop fuel s h Hs Hlate)].
    rewrite poll_retry.
    + set (cs := [DateNow; LocIsVisible reserveBtn; LocIsVisible waitlistBtn;
                  SetTimeout (RESERVE_RETRY_MS K); Reload "domcontentloaded"]).
      pose proof (clock_advances_many h0 Hadv cs h) as Hclk.
      cbn [cs map fold_right min_duration] in Hclk.
      destruct (IH fuel {| calls := calls s ++ cs; console := console s |}
                  (h ++ cs)%list) as (h' & Hpoll & Hlate).
      * cbn [calls]. now rewrite Hs, <- app_assoc.
      * cbn [calls]. rewrite Hs, <- app_assoc. rewrite Hs in Hleft.
        rewrite Nat2Z.inj_succ, Z.mul_succ_l in Hleft. lia.
      * lia.
      * exists h'. split; [exact Hpoll | exact Hlate].
    + exact Hin.
    + rewrite Hs, <- app_assoc. apply Hres.
    + rewrite Hs, <- app_assoc. apply Hwl.
Qed.

(** C8. Under a clock that advances, with a positive retry interval and a
    page on which no probe ever finds the reserve control or the waitlist
    indicator, [clickReserveAndFinish] throws the timeout error right after
    a clock reading at or past [RESERVE_MAX_WAIT_MS] from its start, and
    the script ends with exit code 1 and an error line. Fuel for
    [RESERVE_MAX_WAIT_MS / RESERVE_RETRY_MS + 2] iterations is enough. *)
Theorem polling_times_out fuel s0 s1 :
  reaches_attempt env K fuel s0 s1 ->
  0 < RESERVE_RETRY_MS K ->
  clock_advances env (calls s1) ->
  never_visible env (calls s1) reserveBtn ->
  never_visible env (calls s1) waitlistBtn ->
  (Z.to_nat (RESERVE_MAX_WAIT_MS K / RESERVE_RETRY_MS K) + 2 <= fuel)%nat ->
  exists h,
    clickReserveAndFinish env K fuel s1
    = (Throw timed_out,
       {| calls := calls s1 ++ h ++ [DateNow]; console := console s1 |}) /\
    RESERVE_MAX_WAIT_MS K <= clock env (calls s1 ++ h) - clock env (calls s1) /\
    fst (main env K fuel s0) = Some 1 /\
    exists e, last (console (snd (main env K fuel s0))) (Log EmptyString NoArg)
              = LogError "Error:" (ErrArg e).
Proof.
  intros Hreach Hretry Hadv Hres Hwl Hfuel.
  set (n := S (Z.to_nat (RESERVE_MAX_WAIT_MS K / RESERVE_RETRY_MS K))).
  destruct (poll_times_out (calls s1) (clock env (calls s1)) Hretry Hadv Hres Hwl
              n fuel (record DateNow s1) [DateNow])
    as (h & Hpoll & Hlate).
  - reflexivity.
  - cbn [record calls].
    pose proof (Hadv [] DateNow) as H0. rewrite app_nil_r in H0.
    cbn [app min_duration] in H0.
    assert (RESERVE_MAX_WAIT_MS K <= Z.of_nat n * RESERVE_RETRY_MS K); [| lia].
    unfold n. rewrite Nat2Z.inj_succ.
    destruct (Z.le_gt_cases 0 (RESERVE_MAX_WAIT_MS K)) as [Hpos | Hneg].
    + rewrite Z2Nat.id by (apply Z.div_pos; lia).
      pose proof (Z.mul_succ_div_gt (RESERVE_MAX_WAIT_MS K) (RESERVE_RETRY_MS K)
                    Hretry). lia.
    + assert (0 <= Z.of_nat (Z.to_nat
                (RESERVE_MAX_WAIT_MS K / RESERVE_RETRY_MS K))) by lia. nia.
  - unfold n. lia.
  - exists h. cbn [record console] in Hpoll.
    rewrite <- clickReserveAndFinish_unfold in Hpoll.
    split; [exact Hpoll |]. split; [exact Hlate |].
    rewrite (main_from_attempt _ _ _ Hreach).
    unfold try_finally, run_reserve.
    rewrite (bind_Throw _ _ _ _ _ Hpoll).
    unfold do.
    match goal with
    | |- context [settle env ?hh BrowserClose] =>
        destruct (settle env hh BrowserClose) as [e |]
    end; cbn [top_level_catch fst snd console].
    + split; [reflexivity |]. exists e. apply last_last.
    + split; [reflexivity |]. exists timed_out. apply last_last.
Qed.

Lemma spin_unfold fuel target s :
  spin env (S fuel) target s
  = if (ESDate.msUntilDateTime target (clock env (calls s)) >? 0)%Z
    then spin env fuel target (record DateNow s)
    else (Ok tt, record DateNow s).
Proof.
  cbn [spin]. unfold msUntil, now, ret, bind.
  destruct (ESDate.msUntilDateTime target (clock env (calls s)) >? 0)%Z;
    reflexivity.
Qed.

(** The busy-poll neither reads nor writes the console. *)
Lemma spin_console fuel target :
  forall s s', calls s = calls s' ->
    fst (spin env fuel target s) = fst (spin env fuel target s') /\
    calls (snd (spin env fuel target s)) = calls (snd (spin env fuel target s')).
Proof.
  induction fuel as [| fuel IH]; intros s s' Hc.
  - cbn. split; [reflexivity | exact Hc].
  - rewrite !spin_unfold, Hc.
    destruct (ESDate.msUntilDateTime target (clock env (calls s')) >? 0)%Z.
    + apply IH. unfold record. cbn [calls]. now rewrite Hc.
    + unfold record. cbn. now rewrite Hc.
Qed.

(** C3, as amended. With synchronisation enabled, the wait for the open
    instant is the wait protocol with a threshold of 400 ms and a spin guard
    of 200 ms: same outcome, same calls. The wait for the ready instant is
    one clock reading followed, when the ready instant is still ahead, by a
    single suspension for the whole remaining time: no threshold, no spin
    guard, no busy-poll. *)
Theorem wait_protocol_for_open_only fuel readyAt openAt s :
  USE_WAIT_UNTIL_OPEN K = true ->
  (fst (wait_until_open env K fuel openAt s)
   = fst (wait_protocol_spec env 400 200 fuel openAt s) /\
   calls (snd (wait_until_open env K fuel openAt s))
   = calls (snd (wait_protocol_spec env 400 200 fuel openAt s))) /\
  (let msToReady := ESDate.msUntilDateTime readyAt (clock env (calls s)) in
   fst (wait_until_ready env K readyAt s) = Ok tt /\
   calls (snd (wait_until_ready env K readyAt s))
   = calls s ++ DateNow :: (if (msToReady >? 0)%Z then [SetTimeout msToReady]
                            else [])).
Proof.
  intros Huse. split.
  - unfold wait_until_open, wait_protocol_spec. rewrite Huse.
    unfold bind at 1 3. unfold msUntil, bind, now, ret.
    set (ms := ESDate.msUntilDateTime openAt (clock env (calls s))).
    destruct (Z.gtb_spec ms 0) as [Hpos | Hnon];
      destruct (Z.leb_spec ms 0) as [Hle | Hgt]; try lia.
    + unfold print, sleep.
      destruct (ms >? 400)%Z; apply spin_console; reflexivity.
    + split; reflexivity.
  - cbv zeta. unfold wait_until_ready. rewrite Huse.
    unfold msUntil. unfold bind, now, ret, print, sleep, record.
    destruct (ESDate.msUntilDateTime readyAt (clock env (calls s)) >? 0)%Z;
      cbn [fst snd calls]; split; try reflexivity.
    + now rewrite <- app_assoc.
Qed.

End FlowFacts.

(* ================================================================== *)
(** ** The flow on the concrete surfaces *)
(* ================================================================== *)

Lemma elapsed_app h1 h2 :
  Demo.elapsed (h1 ++ h2) = Demo.elapsed h1 + Demo.elapsed h2.
Proof.
  unfold Demo.elapsed. induction h1 as [| c h1 IH]; cbn [app fold_right].
  - reflexivity.
  - rewrite IH. lia.
Qed.

Lemma surface_clock_advances w h0 :
  Flow.clock_advances (Demo.surface w) h0.
Proof.
  intros h c. cbn [Flow.clock Demo.surface].
  rewrite !elapsed_app. cbn [Demo.elapsed fold_right].
  destruct c; cbn [Flow.min_duration Demo.cost]; lia.
Qed.

Lemma surface_no_reserve w h0 :
  Flow.never_visible (Demo.surface w) h0 Flow.reserveBtn.
Proof. intros h. reflexivity. Qed.

Lemma surface_no_waitlist h0 :
  Flow.never_visible (Demo.surface None) h0 Flow.waitlistBtn.
Proof. intros h. reflexivity. Qed.

Lemma surface_reaches_attempt w fuel :
  fst (Flow.bind (Flow.session_window (Demo.surface w) Demo.K0)
         (fun sw => Flow.bind (Flow.run_pre (Demo.surface w) Demo.K0
                                 (fst sw) (snd sw))
                      (fun url => Flow.run_enter (Demo.surface w) Demo.K0 fuel
                                    (snd sw) url)) Flow.initial) = Flow.Ok tt ->
  Flow.reaches_attempt (Demo.surface w) Demo.K0 fuel Flow.initial
    (Demo.at_attempt (Demo.surface w) fuel).
Proof.
  unfold Flow.reaches_attempt, Demo.at_attempt. intros H.
  rewrite <- H. apply surjective_pairing.
Qed.

(** C1, as stated, fails: on the surface that shows the waitlist indicator
    at once, the attempt ends waitlisted and the exit code is 0. *)
Lemma waitlisted_exit_code_is_zero :
  ~ (last (Flow.console (Demo.after_attempt (Demo.surface (Some 0%nat)) 300))
          (Flow.Log EmptyString Flow.NoArg) = Flow.waitlisted_line ->
     fst (Flow.main (Demo.surface (Some 0%nat)) Demo.K0 300 Flow.initial)
     <> Some 0).
Proof.
  intros H. apply H; vm_compute; reflexivity.
Qed.

(** C1 as amended, on the surface that shows the waitlist indicator after
    two reloads. *)
Lemma waitlisted_exit_code_witness :
  fst (Flow.main (Demo.surface (Some 2%nat)) Demo.K0 300 Flow.initial) = Some 0.
Proof.
  exact (waitlisted_exit_code (Demo.surface (Some 2%nat)) Demo.K0 300
           Flow.initial
           (Demo.at_attempt (Demo.surface (Some 2%nat)) 300)
           (Demo.after_attempt (Demo.surface (Some 2%nat)) 300)
           (surface_reaches_attempt (Some 2%nat) 300
              ltac:(vm_compute; reflexivity))
           ltac:(vm_compute; reflexivity)
           ltac:(vm_compute; reflexivity)).
Defined.

(** C2 on the surface that shows the waitlist indicator at once. *)
Lemma waitlisted_on_first_poll_witness :
  Flow.clickReserveAndFinish (Demo.surface (Some 0%nat)) Demo.K0 300
    (Demo.at_attempt (Demo.surface (Some 0%nat)) 300)
  = (Flow.Ok tt,
     {| Flow.calls :=
          Flow.calls (Demo.at_attempt (Demo.surface (Some 0%nat)) 300)
          ++ [Flow.DateNow; Flow.DateNow;
              Flow.LocIsVisible Flow.reserveBtn;
              Flow.LocIsVisible Flow.waitlistBtn];
        Flow.console :=
          Flow.console (Demo.at_attempt (Demo.surface (Some 0%nat)) 300)
          ++ [Flow.waitlisted_line] |}) /\
  fst (Flow.main (Demo.surface (Some 0%nat)) Demo.K0 300 Flow.initial) = Some 0.
Proof.
  destruct (waitlisted_on_first_poll (Demo.surface (Some 0%nat)) Demo.K0 299
              Flow.initial (Demo.at_attempt (Demo.surface (Some 0%nat)) 300)
              (surface_reaches_attempt (Some 0%nat) 300
                 ltac:(vm_compute; reflexivity))
              ltac:(vm_compute; reflexivity)
              ltac:(vm_compute; reflexivity)
              ltac:(vm_compute; reflexivity)
              eq_refl eq_refl) as [Hret Hmain].
  split; [exact Hret |].
  rewrite Hmain. reflexivity.
Defined.

(** C8 on the surface that never shows either control, with the retry
    interval of 350 ms and the five minutes of the specification. *)
Lemma polling_times_out_witness :
  fst (Flow.main (Demo.surface None) Demo.K0 1000 Flow.initial) = Some 1.
Proof.
  destruct (polling_times_out (Demo.surface None) Demo.K0 1000 Flow.initial
              (Demo.at_attempt (Demo.surface None) 1000)
              (surface_reaches_attempt None 1000 ltac:(vm_compute; reflexivity))
              ltac:(reflexivity)
              (surface_clock_advances None _)
              (surface_no_reserve None _)
              (surface_no_waitlist _)
              ltac:(apply Nat.leb_le; vm_compute; reflexivity))
    as (h & _ & _ & Hcode & _).
  exact Hcode.
Defined.

(** C3, as stated, fails: with the ready instant one second ahead, the
    script sets one timer of 1000 ms and reads the clock once, where the
    wait protocol sets a timer of 800 ms and then polls the clock. *)
Lemma ready_wait_is_not_the_protocol :
  Flow.calls (snd (Flow.wait_until_ready (Demo.surface None) Demo.K0
                     (Demo.t0 + 1000) Flow.initial))
  = [Flow.DateNow; Flow.SetTimeout 1000] /\
  firstn 3 (Flow.calls (snd (Flow.wait_protocol_spec (Demo.surface None)
                               400 200 300 (Demo.t0 + 1000) Flow.initial)))
  = [Flow.DateNow; Flow.SetTimeout 800; Flow.DateNow] /\
  Flow.calls (snd (Flow.wait_until_ready (Demo.surface None) Demo.K0
                     (Demo.t0 + 1000) Flow.initial))
  <> Flow.calls (snd (Flow.wait_protocol_spec (Demo.surface None)
                        400 200 300 (Demo.t0 + 1000) Flow.initial)).
Proof.
  split; [vm_compute; reflexivity |].
  split; [vm_compute; reflexivity |].
  vm_compute. discriminate.
Qed.

(** C3 as amended, with the open instant one second ahead. *)
Lemma wait_protocol_for_open_only_witness :
  Flow.calls (snd (Flow.wait_until_open (Demo.surface None) Demo.K0 300
                     (Demo.t0 + 1000) Flow.initial))
  = Flow.calls (snd (Flow.wait_protocol_spec (Demo.surface None) 400 200 300
                       (Demo.t0 + 1000) Flow.initial)).
Proof.
  exact (proj2 (proj1 (wait_protocol_for_open_only (Demo.surface None) Demo.K0
                         300 (Demo.t0 + 940) (Demo.t0 + 1000) Flow.initial
                         eq_refl))).
Defined.

(* ================================================================== *)
(** ** Further properties: the temporal planner *)
(* ================================================================== *)

Section PlannerMore.

Import ESDate.

Variable z : Zone.

Lemma TimeWithinDay_plus_days t k :
  TimeWithinDay (t + k * msPerDay) = TimeWithinDay t.
Proof. unfold TimeWithinDay. apply Z_mod_plus_full. Qed.

(** X1. In a zone that keeps calendar days, a weekday number of 7 or more
    is taken modulo 7: for every [weekday >= 0], [nextWeekdayOnOrAfter]
    gives the same date as for [weekday mod 7], a date on that weekday, on
    a calendar day from 0 to 6 days after the day of [baseDate]. *)
Theorem nextWeekdayOnOrAfter_weekday_mod baseDate weekday :
  keeps_day z ->
  0 <= weekday ->
  let r := nextWeekdayOnOrAfter z baseDate weekday in
  r = nextWeekdayOnOrAfter z baseDate (weekday mod 7) /\
  getDay z r = weekday mod 7 /\
  localDay z baseDate <= localDay z r <= localDay z baseDate + 6.
Proof.
  intros Hz Hw r. subst r.
  pose proof (getDay_range z baseDate) as Hg.
  pose proof (Z.mod_pos_bound weekday 7 ltac:(lia)) as Hm.
  assert (E : Z.rem (weekday mod 7 - getDay z baseDate + 7) 7
              = Z.rem (weekday - getDay z baseDate + 7) 7).
  { rewrite !Z.rem_mod_nonneg by lia. Z.div_mod_to_equations. lia. }
  split.
  { rewrite !nextWeekdayOnOrAfter_rem, E. reflexivity. }
  rewrite getDay_localDay, localDay_nextWeekdayOnOrAfter by exact Hz.
  rewrite Z.rem_mod_nonneg by lia.
  rewrite getDay_localDay in *.
  split; [Z.div_mod_to_equations; lia |].
  pose proof (Z.mod_pos_bound (weekday - (localDay z baseDate + 4) mod 7 + 7) 7
                ltac:(lia)).
  lia.
Qed.

(** X2. In a zone that keeps calendar days and in which the local time of
    a resolved instant resolves to that instant, [nextWeekdayOnOrAfter] is
    idempotent: applied to its own result with the same weekday ([>= 0])
    it changes nothing. *)
Theorem nextWeekdayOnOrAfter_idempotent baseDate weekday :
  keeps_day z ->
  settled z ->
  0 <= weekday ->
  nextWeekdayOnOrAfter z (nextWeekdayOnOrAfter z baseDate weekday) weekday
  = nextWeekdayOnOrAfter z baseDate weekday.
Proof.
  intros Hz Hs Hw.
  pose proof (getDay_range z baseDate) as Hg.
  set (r := nextWeekdayOnOrAfter z baseDate weekday).
  assert (Hr : r = UTC z (LocalTime z baseDate
                          + Z.rem (weekday - getDay z baseDate + 7) 7 * msPerDay))
    by apply nextWeekdayOnOrAfter_rem.
  assert (Hd : localDay z r
               = localDay z baseDate
                 + Z.rem (weekday - getDay z baseDate + 7) 7)
    by (apply localDay_nextWeekdayOnOrAfter; exact Hz).
  rewrite (nextWeekdayOnOrAfter_rem z r).
  assert (E : Z.rem (weekday - getDay z r + 7) 7 = 0).
  { pose proof (getDay_range z r) as Hgr.
    rewrite Z.rem_mod_nonneg in * by lia.
    rewrite (getDay_localDay z r), Hd. rewrite getDay_localDay in *.
    Z.div_mod_to_equations. lia. }
  rewrite E, Z.mul_0_l, Z.add_0_r. rewrite Hr at 1. rewrite Hs.
  symmetry. exact Hr.
Qed.

(** X3. In a zone whose offsets differ by less than a day and in which a
    local time resolves to its first instant: a weekday number so negative
    that [weekday - baseDate.weekday + 7] is below zero makes the
    remainder of line 27 non-positive; the result is then never after
    [baseDate], less than 7 days before it, and before it unless the
    difference is a multiple of 7. *)
Theorem nextWeekdayOnOrAfter_negative_weekday baseDate weekday :
  day_spread z ->
  resolves_back z ->
  weekday - getDay z baseDate + 7 < 0 ->
  let r := nextWeekdayOnOrAfter z baseDate weekday in
  baseDate - 7 * msPerDay < r <= baseDate /\
  ((weekday - getDay z baseDate) mod 7 <> 0 -> r < baseDate).
Proof.
  intros Hs Hb Hneg r. subst r.
  rewrite nextWeekdayOnOrAfter_rem.
  generalize dependent (getDay z baseDate). intros g Hneg.
  set (q := Z.rem (weekday - g + 7) 7).
  assert (Hq : -7 < q <= 0)
    by (subst q; Z.to_euclidean_division_equations; lia).
  destruct (UTC_offset z (LocalTime z baseDate + q * msPerDay))
    as (o1 & H1 & E1).
  destruct (LocalTime_offset z baseDate) as (o2 & H2 & E2).
  pose proof (Hs o1 o2 H1 H2) as S1. pose proof (Hs o2 o1 H2 H1) as S2.
  destruct (Hb baseDate) as [Hle _].
  assert (Hcase : q = 0 \/ q <= -1) by lia.
  destruct Hcase as [Hz0 | Hneg1].
  - rewrite Hz0, Z.mul_0_l, Z.add_0_r in *.
    split; [split; [rewrite E1, E2; unfold msPerDay in *; lia | exact Hle] |].
    intros Hnz. exfalso. apply Hnz.
    subst q. Z.to_euclidean_division_equations. lia.
  - rewrite E1, E2. unfold msPerDay in *.
    split; [lia | intros _; lia].
Qed.

(** X4. In a zone that keeps calendar days and resolves a local time to
    its first instant, when [now] already falls on the target weekday, [computeTargetClassDate] returns a date on the
    calendar day exactly 7 days after the day of [now], never on the day of
    [now]; its local time is the local time of [now] seven days later,
    unless a transition skips that local time. In a zone without
    transitions the result keeps the local time of day of [now] for every
    target weekday, and on the target weekday it is exactly [now] plus 7
    days of 24 hours. *)
Theorem computeTargetClassDate_same_weekday targetWeekday now :
  keeps_day z ->
  resolves_back z ->
  0 <= targetWeekday <= 6 ->
  let r := computeTargetClassDate z targetWeekday now in
  (getDay z now = targetWeekday ->
   localDay z r = localDay z now + 7 /\
   (occurs z (LocalTime z now + 7 * msPerDay) ->
    LocalTime z r = LocalTime z now + 7 * msPerDay)) /\
  (transitions z = [] ->
   TimeWithinDay (LocalTime z r) = TimeWithinDay (LocalTime z now) /\
   (getDay z now = targetWeekday -> r = now + 7 * msPerDay)).
Proof.
  intros Hz Hb Hw r.
  assert (Hsame : getDay z now = targetWeekday ->
                  Z.rem (targetWeekday - (localDay z now + 7 + 4) mod 7 + 7) 7
                  = 0).
  { intros E. rewrite getDay_localDay in E.
    rewrite Z.rem_mod_nonneg;
      [| pose proof (Z.mod_pos_bound (localDay z now + 7 + 4) 7 ltac:(lia));
         lia | lia].
    Z.div_mod_to_equations. lia. }
  split.
  - intros E. split.
    + unfold r.
      rewrite localDay_computeTargetClassDate, (Hsame E) by exact Hz. lia.
    + intros Hocc. apply (occurs_resolved z _ Hb) in Hocc.
      unfold r, computeTargetClassDate; cbv zeta.
      rewrite nextWeekdayOnOrAfter_rem, getDay_localDay,
        localDay_setDate by exact Hz.
      rewrite (Hsame E), Z.mul_0_l, Z.add_0_r, setDate_getDate_plus.
      rewrite !Hocc. reflexivity.
  - intros Hfixed.
    assert (Hr : r = now + (7 + Z.rem (targetWeekday
                                       - (localDay z now + 7 + 4) mod 7 + 7) 7)
                         * msPerDay).
    { unfold r, computeTargetClassDate; cbv zeta.
      rewrite nextWeekdayOnOrAfter_rem, getDay_localDay,
        localDay_setDate by exact Hz.
      rewrite setDate_getDate_plus.
      repeat first [ rewrite no_transition_UTC by (exact Hfixed)
                   | rewrite no_transition_LocalTime by (exact Hfixed) ].
      lia. }
    split.
    + rewrite Hr, !no_transition_LocalTime by exact Hfixed.
      replace (now + (7 + Z.rem (targetWeekday
                                 - (localDay z now + 7 + 4) mod 7 + 7) 7)
                     * msPerDay + base_offset z)
        with (now + base_offset z
              + (7 + Z.rem (targetWeekday
                            - (localDay z now + 7 + 4) mod 7 + 7) 7)
                * msPerDay) by lia.
      apply TimeWithinDay_plus_days.
    + intros E. rewrite Hr, (Hsame E). lia.
Qed.

(** X5. In a zone that keeps calendar days, for a target weekday in 0..6
    and a clock time, booking opens on the weekday before the target one,
    on a calendar day from one day before to five days after the day of
    [now]; when [now] falls on that weekday, booking opens on the day of
    [now]. *)
Theorem openAt_weekday_before_target targetWeekday now h m s :
  keeps_day z ->
  0 <= targetWeekday <= 6 ->
  0 <= h <= 23 -> 0 <= m <= 59 -> 0 <= s <= 59 ->
  let classDate := computeTargetClassDate z targetWeekday now in
  let openAt := computeOpenTimeForClass z classDate h m s in
  getDay z openAt = (targetWeekday + 6) mod 7 /\
  localDay z now - 1 <= localDay z openAt <= localDay z now + 5 /\
  (getDay z now = (targetWeekday + 6) mod 7 ->
   localDay z openAt = localDay z now).
Proof.
  intros Hz Hw Hh Hm Hs classDate openAt.
  assert (Hoa : localDay z openAt = localDay z classDate - 8).
  { unfold openAt.
    rewrite computeOpenTimeForClass_UTC, localDay_UTC by exact Hz.
    apply Day_MakeDate. now apply clock_time_within_day. }
  assert (Hday : localDay z classDate
                 = localDay z now + 7
                   + Z.rem (targetWeekday - (localDay z now + 7 + 4) mod 7 + 7)
                       7)
    by (apply localDay_computeTargetClassDate; exact Hz).
  rewrite (getDay_localDay z openAt), Hoa, Hday.
  rewrite !(getDay_localDay z now).
  generalize (localDay z now); intros D.
  replace ((D + 7 + 4) mod 7) with ((D + 4) mod 7)
    by (Z.div_mod_to_equations; lia).
  pose proof (Z.mod_pos_bound (D + 4) 7 ltac:(lia)) as Hg.
  pose proof (Z.div_mod (D + 4) 7 ltac:(lia)) as HD.
  set (g := (D + 4) mod 7) in *.
  rewrite Z.rem_mod_nonneg by lia.
  assert (Hk : (targetWeekday - g + 7) mod 7
               = if targetWeekday <? g then targetWeekday - g + 7
                 else targetWeekday - g).
  { destruct (Z.ltb_spec targetWeekday g).
    - apply Z.mod_small. lia.
    - replace (targetWeekday - g + 7) with (targetWeekday - g + 1 * 7) by lia.
      rewrite Z_mod_plus_full. apply Z.mod_small. lia. }
  rewrite Hk.
  destruct (Z.ltb_spec targetWeekday g);
    (split; [| split; [| intros Hsame]]); Z.div_mod_to_equations; lia.
Qed.

(** X6. In a zone that keeps calendar days, the open instant depends on
    [now] through its calendar day alone: two runs started on the same
    local day compute the same [openAt], whatever the time of day. *)
Theorem openAt_same_for_same_day targetWeekday now1 now2 h m s :
  keeps_day z ->
  localDay z now1 = localDay z now2 ->
  computeOpenTimeForClass z (computeTargetClassDate z targetWeekday now1)
    h m s
  = computeOpenTimeForClass z (computeTargetClassDate z targetWeekday now2)
      h m s.
Proof.
  intros Hz Hd.
  rewrite !computeOpenTimeForClass_UTC by exact Hz.
  rewrite !localDay_computeTargetClassDate by exact Hz.
  rewrite Hd. reflexivity.
Qed.

(** X7. [toISODate] depends on a date through its local calendar day
    alone. *)
Theorem toISODate_same_day d1 d2 :
  localDay z d1 = localDay z d2 ->
  Text.toISODate z d1 = Text.toISODate z d2.
Proof.
  intros Hd. unfold localDay in Hd.
  unfold Text.toISODate, getFullYear, getMonth, getDate, DateFromTime,
    MonthFromTime, InLeapYear, DayWithinYear, YearFromTime.
  rewrite Hd. reflexivity.
Qed.

(** X8. [withinWindow] is an interval test on the time left until
    [openAt]: it holds exactly when that time is between minus [lateMs] and
    [earlyMs]; any instant between two instants of the window is in the
    window; the window holds [openAt] when both bounds are non-negative and
    is empty when they add up to less than zero. *)
Theorem withinWindow_interval now openAt earlyMs lateMs :
  let e := Text.withDefault 120000 earlyMs in
  let l := Text.withDefault 300000 lateMs in
  (Rest.withinWindow now openAt earlyMs lateMs = true <->
   - l <= msUntilDateTime openAt (getTime now) <= e) /\
  (forall t1 t2,
     Rest.withinWindow t1 openAt earlyMs lateMs = true ->
     Rest.withinWindow t2 openAt earlyMs lateMs = true ->
     t1 <= now <= t2 ->
     Rest.withinWindow now openAt earlyMs lateMs = true) /\
  (0 <= e -> 0 <= l -> Rest.withinWindow openAt openAt earlyMs lateMs = true) /\
  (e + l < 0 -> Rest.withinWindow now openAt earlyMs lateMs = false).
Proof.
  intros e l.
  assert (Hiff : forall t,
             Rest.withinWindow t openAt earlyMs lateMs = true <->
             - l <= msUntilDateTime openAt (getTime t) <= e).
  { intros t. unfold Rest.withinWindow, msUntilDateTime, getTime; cbv zeta.
    change (2 * 60 * 1000) with 120000. change (5 * 60 * 1000) with 300000.
    fold e l. rewrite andb_true_iff, Z.geb_le, Z.leb_le. lia. }
  unfold msUntilDateTime, getTime in Hiff.
  split; [apply Hiff |].
  split.
  { intros t1 t2 H1 H2 Hbetween.
    apply Hiff. apply Hiff in H1. apply Hiff in H2. lia. }
  split.
  { intros He Hl. apply Hiff. lia. }
  intros Hempty.
  destruct (Rest.withinWindow now openAt earlyMs lateMs) eqn:E;
    [| reflexivity].
  apply Hiff in E. lia.
Qed.

End PlannerMore.

(** X1 in New York on Sunday 2026-02-22 with weekday number 8, which is
    Monday. *)
Lemma nextWeekdayOnOrAfter_weekday_mod_witness :
  0 <= 8 /\
  ESDate.getDay Demo.new_york_2026
    (ESDate.nextWeekdayOnOrAfter Demo.new_york_2026 1771772400000 8)
  = 8 mod 7.
Proof.
  split; [lia |].
  exact (proj1 (proj2 (nextWeekdayOnOrAfter_weekday_mod Demo.new_york_2026
                         1771772400000 8 new_york_keeps_day ltac:(lia)))).
Defined.

(** X2 in New York from Saturday 2026-03-07 to Sunday, across the start of
    daylight saving. *)
Lemma nextWeekdayOnOrAfter_idempotent_witness :
  0 <= 0 /\
  ESDate.nextWeekdayOnOrAfter Demo.new_york_2026
    (ESDate.nextWeekdayOnOrAfter Demo.new_york_2026 1772868600000 0) 0
  = ESDate.nextWeekdayOnOrAfter Demo.new_york_2026 1772868600000 0.
Proof.
  split; [lia |].
  exact (nextWeekdayOnOrAfter_idempotent Demo.new_york_2026 1772868600000 0
           new_york_keeps_day new_york_settled ltac:(lia)).
Defined.

(** X3 in New York on Sunday 2026-02-22 with weekday number -9. *)
Lemma nextWeekdayOnOrAfter_negative_weekday_witness :
  -9 - ESDate.getDay Demo.new_york_2026 1771772400000 + 7 < 0 /\
  ESDate.nextWeekdayOnOrAfter Demo.new_york_2026 1771772400000 (-9)
  <= 1771772400000.
Proof.
  split; [vm_compute; reflexivity |].
  exact (proj2 (proj1 (nextWeekdayOnOrAfter_negative_weekday
                         Demo.new_york_2026 1771772400000 (-9)
                         new_york_day_spread new_york_resolves_back
                         ltac:(vm_compute; reflexivity)))).
Defined.

(** X4 in New York on Sunday 2026-03-01 at 10:00 with Sunday as target:
    the next Sunday, which is one hour less than 7 times 24 hours away. *)
Lemma computeTargetClassDate_same_weekday_witness :
  ESDate.getDay Demo.new_york_2026 1772377200000 = 0 /\
  ESDate.localDay Demo.new_york_2026
    (ESDate.computeTargetClassDate Demo.new_york_2026 0 1772377200000)
  = ESDate.localDay Demo.new_york_2026 1772377200000 + 7.
Proof.
  split; [vm_compute; reflexivity |].
  exact (proj1 (proj1 (computeTargetClassDate_same_weekday
                         Demo.new_york_2026 0 1772377200000
                         new_york_keeps_day new_york_resolves_back
                         ltac:(lia))
                  ltac:(vm_compute; reflexivity))).
Defined.

(** X5 in New York on Sunday 2026-03-01 at 10:00, Monday and 20:00:00. *)
Lemma openAt_weekday_before_target_witness :
  ESDate.getDay Demo.new_york_2026
    (ESDate.computeOpenTimeForClass Demo.new_york_2026
       (ESDate.computeTargetClassDate Demo.new_york_2026 1 1772377200000)
       20 0 0)
  = (1 + 6) mod 7.
Proof.
  exact (proj1 (openAt_weekday_before_target Demo.new_york_2026 1
                  1772377200000 20 0 0 new_york_keeps_day
                  ltac:(lia) ltac:(lia) ltac:(lia) ltac:(lia))).
Defined.

(** X6 in New York at 10:00 and 19:58 of Sunday 2026-03-01. *)
Lemma openAt_same_for_same_day_witness :
  ESDate.computeOpenTimeForClass Demo.new_york_2026
    (ESDate.computeTargetClassDate Demo.new_york_2026 1 1772377200000) 20 0 0
  = ESDate.computeOpenTimeForClass Demo.new_york_2026
      (ESDate.computeTargetClassDate Demo.new_york_2026 1 1772413080000)
      20 0 0.
Proof.
  exact (openAt_same_for_same_day Demo.new_york_2026 1 1772377200000
           1772413080000 20 0 0 new_york_keeps_day
           ltac:(vm_compute; reflexivity)).
Defined.

(** X7 in New York at 10:00 and 23:00 of Monday 2026-03-02. *)
Lemma toISODate_same_day_witness :
  Text.toISODate Demo.new_york_2026 1772463600000
  = Text.toISODate Demo.new_york_2026 1772510400000.
Proof.
  exact (toISODate_same_day Demo.new_york_2026 1772463600000 1772510400000
           ltac:(vm_compute; reflexivity)).
Defined.

(** X8 with the default bounds, one minute before the open instant. *)
Lemma withinWindow_interval_witness :
  Rest.withinWindow 1771808340000 1771808400000 None None = true.
Proof.
  exact (proj1 (proj2 (withinWindow_interval 1771808340000 1771808400000
                         None None))
           1771808300000 1771808400000 eq_refl eq_refl
           ltac:(lia)).
Defined.

(* ================================================================== *)
(** ** Further properties: the schedule URL and the card matcher *)
(* ================================================================== *)

Section TextMore.

Import Text Rest.
Local Open Scope string_scope.

Lemma urlencode_char c :
  all_chars query_char (urlencode (String c EmptyString)) = true.
Proof.
  destruct c as [[] [] [] [] [] [] [] []]; vm_compute; reflexivity.
Qed.

Lemma urlencode_query_chars s : all_chars query_char (urlencode s) = true.
Proof.
  induction s as [| c s IH]; [reflexivity |].
  now rewrite urlencode_cons, all_chars_app, urlencode_char, IH.
Qed.

Lemma toString_query_chars l : all_chars query_char (toString l) = true.
Proof.
  induction l as [| [n v] l IH]; [reflexivity |].
  cbn [toString]. destruct l as [| p l].
  - rewrite !all_chars_app, !urlencode_query_chars. reflexivity.
  - rewrite !all_chars_app, !urlencode_query_chars, IH. reflexivity.
Qed.

(** X9. Whatever the option values, the URL that [buildScheduleUrl]
    returns is the club path, a question mark and a query made only of
    letters, digits and the characters [* - . _ + % = &]: no space,
    quote, slash or other reserved character reaches the query
    unescaped. *)
Theorem buildScheduleUrl_query_chars (o : ScheduleOptions) url :
  buildScheduleUrl o = inr url ->
  exists query,
    url = withDefault "https://my.lifetime.life/clubs/va/fairfax/classes.html"
            (clubPath o) ++ "?" ++ query /\
    all_chars query_char query = true.
Proof.
  unfold buildScheduleUrl.
  destruct (negb (truthyString (selectedDate o))); [discriminate |].
  intros H. injection H as <-.
  eexists. split; [reflexivity |]. apply toString_query_chars.
Qed.

Lemma append_not_empty a c b : a ++ String c b <> EmptyString.
Proof. destruct a; discriminate. Qed.

(** X10. [toISODate] never returns the empty string, so the call of
    [buildScheduleUrl] that [run] makes, with [selectedDate] set to
    [toISODate classDate] and the other options whatever the schedule
    defaults are, never throws. *)
Theorem schedule_url_always_built zone classDate (defaults : ScheduleOptions) :
  toISODate zone classDate <> EmptyString /\
  exists url,
    buildScheduleUrl
      {| clubPath := clubPath defaults;
         selectedDate := Some (toISODate zone classDate);
         location := location defaults;
         interest := interest defaults;
         mode := mode defaults;
         teamMemberView := teamMemberView defaults |} = inr url.
Proof.
  assert (Hne : toISODate zone classDate <> EmptyString)
    by (unfold toISODate; apply append_not_empty).
  split; [exact Hne |].
  unfold buildScheduleUrl. cbn [selectedDate truthyString].
  destruct (String.eqb_spec (toISODate zone classDate) EmptyString) as [E | _];
    [contradiction |].
  cbn [negb]. eexists. reflexivity.
Qed.

Lemma occurs_in_trans s text text' :
  occurs_in s text -> occurs_in text text' -> occurs_in s text'.
Proof.
  intros (a & b & ->) (a' & b' & ->).
  exists (a' ++ a), (b ++ b').
  now rewrite !append_assoc.
Qed.

(** X11. A match survives surrounding text: when [text] occurs inside
    [text'], every list of criteria that [text] matches is matched by
    [text'] too. *)
Theorem cardMatches_surrounding_text text text' criteria :
  occurs_in text text' ->
  cardMatches text criteria = true ->
  cardMatches text' criteria = true.
Proof.
  intros Hin. unfold cardMatches, every. rewrite !forallb_forall.
  intros H s Hs. apply includes_occurs_in.
  apply occurs_in_trans with (text := text); [| exact Hin].
  apply includes_occurs_in, H, Hs.
Qed.

End TextMore.

(** X9 at the schedule defaults and 2026-03-02. *)
Lemma buildScheduleUrl_query_chars_witness :
  exists query,
    ("https://my.lifetime.life/clubs/va/fairfax/classes.html?"
     ++ "teamMemberView=true&mode=week&selectedDate=2026-03-02"
     ++ "&interest=Pickleball+Open+Play&location=Fairfax")%string
    = (Text.withDefault
         "https://my.lifetime.life/clubs/va/fairfax/classes.html"
         (Text.clubPath
            {| Text.clubPath := None;
               Text.selectedDate := Some "2026-03-02"%string;
               Text.location := None; Text.interest := None;
               Text.mode := None; Text.teamMemberView := None |})
       ++ "?" ++ query)%string /\
    Rest.all_chars Rest.query_char query = true.
Proof.
  exact (buildScheduleUrl_query_chars
           {| Text.clubPath := None;
              Text.selectedDate := Some "2026-03-02"%string;
              Text.location := None; Text.interest := None;
              Text.mode := None; Text.teamMemberView := None |}
           _ eq_refl).
Defined.

(** X11 on a card whose text is wrapped in a heading and a footer. *)
Lemma cardMatches_surrounding_text_witness :
  Text.cardMatches "Mon 8:00 PM Pickleball Open Play (Court 2)"
    ["Pickleball"; "8:00"]%string = true.
Proof.
  apply (cardMatches_surrounding_text "8:00 PM Pickleball Open Play").
  - exists "Mon "%string, " (Court 2)"%string. reflexivity.
  - reflexivity.
Defined.

(* ================================================================== *)
(** ** Further properties: the reservation flow *)
(* ================================================================== *)

Section FlowMore.

Import Text Flow Rest.
Local Open Scope string_scope.
Local Open Scope list_scope.

Variable env : Env.
Variable K : Constants.

Lemma ask_text_answer c s text :
  answer_text env (calls s) c = inr text ->
  ask_text env c s = (Ok text, record c s).
Proof. intros H. unfold ask_text. now rewrite H. Qed.

Lemma card_reads_S i m :
  card_reads K i (S m)
  = LocInnerText (Nth (cards K) i) :: card_reads K (i + 1) m.
Proof.
  unfold card_reads. cbn [seq map]. rewrite Z.add_0_r. f_equal.
  rewrite <- seq_shift, map_map. apply map_ext.
  intros k. do 2 f_equal. lia.
Qed.

(** The loop over the cards on a page whose cards keep their texts. *)
Lemma find_card_scan (text_of : Z -> string) n i s :
  (forall h k, answer_text env (calls s ++ h)
                 (LocInnerText (Nth (cards K) k)) = inr (text_of k)) ->
  match find_card env K n i s with
  | (Ok (Some j), s') =>
      exists m, (m < n)%nat /\ j = i + Z.of_nat m /\
        cardMatches (text_of j) (MUST_INCLUDE K) = true /\
        (forall m', (m' < m)%nat ->
           cardMatches (text_of (i + Z.of_nat m')) (MUST_INCLUDE K) = false) /\
        calls s' = calls s ++ card_reads K i (S m)
  | (Ok None, s') =>
      (forall m', (m' < n)%nat ->
         cardMatches (text_of (i + Z.of_nat m')) (MUST_INCLUDE K) = false) /\
      calls s' = calls s ++ card_reads K i n /\
      console s' = console s
  | _ => False
  end.
Proof.
  revert i s. induction n as [| n IH]; intros i s Hpage.
  - cbn. repeat split; [intros m' Hm'; lia | now rewrite app_nil_r].
  - cbn [find_card].
    assert (Hread : ask_text env (LocInnerText (Nth (cards K) i)) s
                    = (Ok (text_of i), record (LocInnerText (Nth (cards K) i)) s)).
    { apply ask_text_answer. specialize (Hpage [] i).
      now rewrite app_nil_r in Hpage. }
    rewrite (bind_Ok _ _ _ _ _ Hread).
    destruct (cardMatches (text_of i) (MUST_INCLUDE K)) eqn:Hmatch.
    + unfold bind, print, ret, record. cbn [calls console].
      exists 0%nat. rewrite Z.add_0_r.
      repeat split; [lia | exact Hmatch | intros m' Hm'; lia |].
      rewrite card_reads_S. reflexivity.
    + specialize (IH (i + 1) (record (LocInnerText (Nth (cards K) i)) s)).
      assert (Hpage' : forall h k,
                 answer_text env
                   (calls (record (LocInnerText (Nth (cards K) i)) s) ++ h)
                   (LocInnerText (Nth (cards K) k)) = inr (text_of k)).
      { intros h k. unfold record. cbn [calls].
        rewrite <- app_assoc. apply Hpage. }
      specialize (IH Hpage').
      destruct (find_card env K n (i + 1)
                  (record (LocInnerText (Nth (cards K) i)) s))
        as [[[j |] | e |] s'].
      * destruct IH as (m & Hm & Hj & Hmj & Hbefore & Hcalls).
        exists (S m). repeat split.
        -- lia.
        -- lia.
        -- exact Hmj.
        -- intros [| m'] Hm'.
           ++ now rewrite Z.add_0_r.
           ++ replace (i + Z.of_nat (S m')) with (i + 1 + Z.of_nat m') by lia.
              apply Hbefore. lia.
        -- rewrite Hcalls. unfold record. cbn [calls].
           rewrite <- app_assoc. cbn [app].
           now rewrite (card_reads_S i (S m)).
      * destruct IH as (Hnone & Hcalls & Hcons). repeat split.
        -- intros [| m'] Hm'.
           ++ now rewrite Z.add_0_r.
           ++ replace (i + Z.of_nat (S m')) with (i + 1 + Z.of_nat m') by lia.
              apply Hnone. lia.
        -- rewrite Hcalls. unfold record. cbn [calls].
           rewrite <- app_assoc. cbn [app]. now rewrite card_reads_S.
        -- exact Hcons.
      * exact IH.
      * exact IH.
Qed.

(** X12. On a page whose cards keep their texts while the loop runs, the
    loop over the cards never throws and stops at the first card that
    matches: it yields the lowest index in range whose text matches all
    of [MUST_INCLUDE], having read that card and the ones before it and no
    other; it yields nothing exactly when no card in range matches, having
    read them all. *)
Theorem find_card_first_match (text_of : Z -> string) n i s :
  (forall h k, answer_text env (calls s ++ h)
                 (LocInnerText (Nth (cards K) k)) = inr (text_of k)) ->
  match find_card env K n i s with
  | (Ok (Some j), s') =>
      exists m, (m < n)%nat /\ j = i + Z.of_nat m /\
        cardMatches (text_of j) (MUST_INCLUDE K) = true /\
        (forall m', (m' < m)%nat ->
           cardMatches (text_of (i + Z.of_nat m')) (MUST_INCLUDE K) = false) /\
        calls s' = calls s ++ card_reads K i (S m)
  | (Ok None, s') =>
      (forall m', (m' < n)%nat ->
         cardMatches (text_of (i + Z.of_nat m')) (MUST_INCLUDE K) = false) /\
      calls s' = calls s ++ card_reads K i n /\
      console s' = console s
  | _ => False
  end.
Proof. apply find_card_scan. Qed.

(** X13. [dismissCookieBanner] never throws. When the banner does not show
    within its six seconds it makes that one call and logs "No cookie
    banner."; when it shows and the click succeeds it clicks and sleeps
    400 ms; when the click fails the failure is swallowed as well. *)
Theorem dismissCookieBanner_never_throws s :
  let wait := LocWaitFor acceptBtn "visible" 6000 in
  let s' := snd (dismissCookieBanner env s) in
  fst (dismissCookieBanner env s) = Ok tt /\
  (settle env (calls s) wait <> None ->
   calls s' = calls s ++ [wait] /\
   console s' = console s ++ [Log "No cookie banner." NoArg]) /\
  (settle env (calls s) wait = None ->
   settle env (calls s ++ [wait]) (LocClick acceptBtn) = None ->
   calls s' = calls s ++ [wait; LocClick acceptBtn; SetTimeout 400]) /\
  (settle env (calls s) wait = None ->
   settle env (calls s ++ [wait]) (LocClick acceptBtn) <> None ->
   calls s' = calls s ++ [wait; LocClick acceptBtn]).
Proof.
  cbv zeta.
  unfold dismissCookieBanner, try_catch, bind, do, print, sleep, record.
  cbn [calls console].
  destruct (settle env (calls s) (LocWaitFor acceptBtn "visible" 6000)) as [e |];
    cbn [fst snd calls console].
  - repeat split; try reflexivity; try discriminate; intros H; discriminate.
  - destruct (settle env (calls s ++ [LocWaitFor acceptBtn "visible" 6000])
                (LocClick acceptBtn)) as [e |]; cbn [fst snd calls console].
    + repeat split; try reflexivity; try congruence.
      intros _ _. now rewrite <- app_assoc.
    + repeat split; try reflexivity; try congruence.
      intros _ _. now rewrite <- !app_assoc.
Qed.

Lemma poll_reserve fuel start s :
  clock env (calls s) - start < RESERVE_MAX_WAIT_MS K ->
  probe env (calls s ++ [DateNow]) reserveBtn = true ->
  poll env K (S fuel) start s
  = bind (print (Log "Reserve visible. Clicking Reserve..." NoArg))
      (fun _ => bind (do env (LocClick reserveBtn))
      (fun _ => bind (print (Log "Waiting for Finish..." NoArg))
      (fun _ => bind (do env (LocWaitFor finishBtn "visible" 15000))
      (fun _ => bind (do env (LocClick finishBtn))
      (fun _ => bind (print (Log "Finish clicked. Reservation complete." NoArg))
      (fun _ => ret tt))))))
      {| calls := calls s ++ [DateNow; LocIsVisible reserveBtn];
         console := console s |}.
Proof.
  intros Ht Hr. rewrite poll_unfold.
  destruct (Z.ltb_spec (clock env (calls s) - start) (RESERVE_MAX_WAIT_MS K));
    [| lia].
  unfold bind at 1. rewrite isVisibleOrFalse_probe. cbn [record calls].
  rewrite Hr. unfold record. cbn [calls console].
  now rewrite <- app_assoc.
Qed.

(** X14. The reserve control has priority: when the first polling
    iteration finds it visible and the three actions succeed,
    [clickReserveAndFinish] clicks Reserve once, waits up to 15 s for
    Finish, clicks it and returns, without ever probing the waitlist
    indicator, reloading or sleeping. *)
Theorem reserve_on_first_poll fuel s :
  clock env (calls s ++ [DateNow]) - clock env (calls s)
  < RESERVE_MAX_WAIT_MS K ->
  probe env (calls s ++ [DateNow; DateNow]) reserveBtn = true ->
  settle env (calls s ++ [DateNow; DateNow; LocIsVisible reserveBtn])
         (LocClick reserveBtn) = None ->
  settle env (calls s ++ [DateNow; DateNow; LocIsVisible reserveBtn;
                          LocClick reserveBtn])
         (LocWaitFor finishBtn "visible" 15000) = None ->
  settle env (calls s ++ [DateNow; DateNow; LocIsVisible reserveBtn;
                          LocClick reserveBtn;
                          LocWaitFor finishBtn "visible" 15000])
         (LocClick finishBtn) = None ->
  clickReserveAndFinish env K (S fuel) s
  = (Ok tt,
     {| calls := calls s ++ [DateNow; DateNow; LocIsVisible reserveBtn;
                             LocClick reserveBtn;
                             LocWaitFor finishBtn "visible" 15000;
                             LocClick finishBtn];
        console := console s
                   ++ [Log "Reserve visible. Clicking Reserve..." NoArg;
                       Log "Waiting for Finish..." NoArg;
                       Log "Finish clicked. Reservation complete." NoArg] |}).
Proof.
  intros Ht Hr Hc1 Hw Hc2.
  rewrite clickReserveAndFinish_unfold, poll_reserve.
  - unfold bind, print, do, ret, record. cbn [calls console].
    rewrite <- !app_assoc. cbn [app].
    rewrite Hc1, Hw, Hc2. reflexivity.
  - exact Ht.
  - unfold record. cbn [calls]. now rewrite <- app_assoc.
Qed.

(** X15. A Finish control that does not show within its 15 s is a hard
    failure: after the Reserve click, the error of the wait leaves
    [clickReserveAndFinish] at once (no Finish click, no retry, no
    reload), and the script ends with exit code 1. *)
Theorem finish_timeout_is_fatal fuel s0 s e :
  reaches_attempt env K (S fuel) s0 s ->
  clock env (calls s ++ [DateNow]) - clock env (calls s)
  < RESERVE_MAX_WAIT_MS K ->
  probe env (calls s ++ [DateNow; DateNow]) reserveBtn = true ->
  settle env (calls s ++ [DateNow; DateNow; LocIsVisible reserveBtn])
         (LocClick reserveBtn) = None ->
  settle env (calls s ++ [DateNow; DateNow; LocIsVisible reserveBtn;
                          LocClick reserveBtn])
         (LocWaitFor finishBtn "visible" 15000) = Some e ->
  clickReserveAndFinish env K (S fuel) s
  = (Throw e,
     {| calls := calls s ++ [DateNow; DateNow; LocIsVisible reserveBtn;
                             LocClick reserveBtn;
                             LocWaitFor finishBtn "visible" 15000];
        console := console s
                   ++ [Log "Reserve visible. Clicking Reserve..." NoArg;
                       Log "Waiting for Finish..." NoArg] |}) /\
  fst (main env K (S fuel) s0) = Some 1.
Proof.
  intros Hreach Ht Hr Hc1 Hw.
  assert (Hthrow : clickReserveAndFinish env K (S fuel) s
                   = (Throw e,
                      {| calls := calls s ++ [DateNow; DateNow;
                                              LocIsVisible reserveBtn;
                                              LocClick reserveBtn;
                                              LocWaitFor finishBtn "visible" 15000];
                         console := console s
                           ++ [Log "Reserve visible. Clicking Reserve..." NoArg;
                               Log "Waiting for Finish..." NoArg] |})).
  { rewrite clickReserveAndFinish_unfold, poll_reserve.
    - unfold bind, print, do, ret, record. cbn [calls console].
      rewrite <- !app_assoc. cbn [app].
      rewrite Hc1, Hw. reflexivity.
    - exact Ht.
    - unfold record. cbn [calls]. now rewrite <- app_assoc. }
  split; [exact Hthrow |].
  rewrite (main_from_attempt _ _ _ _ _ Hreach).
  unfold try_finally, run_reserve.
  rewrite (bind_Throw _ _ _ _ _ Hthrow).
  unfold do.
  match goal with
  | |- context [settle env ?hh BrowserClose] =>
      destruct (settle env hh BrowserClose)
  end; reflexivity.
Qed.

Lemma poll_no_action h0 start :
  never_visible env h0 reserveBtn ->
  forall fuel s hm,
    calls s = h0 ++ hm ->
    exists h,
      calls (snd (poll env K fuel start s)) = calls s ++ h /\
      forallb (fun c => negb (is_action c)) h = true.
Proof.
  intros Hnv. induction fuel as [| fuel IH]; intros s hm Hs.
  - exists []. cbn. now rewrite app_nil_r.
  - destruct (Z.lt_ge_cases (clock env (calls s) - start)
                (RESERVE_MAX_WAIT_MS K)) as [Hin | Hlate].
    + assert (Hr : probe env (calls s ++ [DateNow]) reserveBtn = false)
        by (rewrite Hs, <- app_assoc; apply Hnv).
      destruct (probe env (calls s ++ [DateNow; LocIsVisible reserveBtn])
                  waitlistBtn) eqn:Hw.
      * rewrite poll_waitlisted by assumption. cbn [snd calls].
        eexists. split; reflexivity.
      * rewrite poll_retry by assumption.
        destruct (IH {| calls := calls s ++ [DateNow; LocIsVisible reserveBtn;
                                             LocIsVisible waitlistBtn;
                                             SetTimeout (RESERVE_RETRY_MS K);
                                             Reload "domcontentloaded"];
                        console := console s |}
                    (hm ++ [DateNow; LocIsVisible reserveBtn;
                            LocIsVisible waitlistBtn;
                            SetTimeout (RESERVE_RETRY_MS K);
                            Reload "domcontentloaded"]))
          as (h & Hcalls & Hh).
        { cbn [calls]. now rewrite Hs, <- app_assoc. }
        cbn [calls] in Hcalls. rewrite Hcalls, <- app_assoc.
        eexists. split; [reflexivity |].
        rewrite forallb_app, Hh. reflexivity.
    + rewrite poll_timeout by assumption.
      exists [DateNow]. split; reflexivity.
Qed.

(** X16. [clickReserveAndFinish] never acts on a control it has not seen:
    on a page where no probe finds the reserve control visible, none of
    the calls it makes, for any amount of fuel and however it ends, is a
    click, a fill or a wait for an element. *)
Theorem no_action_without_reserve fuel s :
  never_visible env (calls s) reserveBtn ->
  exists h,
    calls (snd (clickReserveAndFinish env K fuel s)) = calls s ++ h /\
    forallb (fun c => negb (is_action c)) h = true.
Proof.
  intros Hnv. rewrite clickReserveAndFinish_unfold.
  destruct (poll_no_action (calls s) (clock env (calls s)) Hnv fuel
              (record DateNow s) [DateNow] eq_refl) as (h & Hcalls & Hh).
  exists (DateNow :: h). split.
  - rewrite Hcalls. unfold record. cbn [calls]. now rewrite <- app_assoc.
  - cbn [forallb is_action negb andb]. exact Hh.
Qed.

Lemma spin_Ok fuel target :
  forall s s',
    spin env fuel target s = (Ok tt, s') ->
    exists h, calls s' = h ++ [DateNow] /\ target <= clock env h.
Proof.
  induction fuel as [| fuel IH]; intros s s' H.
  - discriminate.
  - rewrite spin_unfold in H.
    destruct (Z.gtb_spec (ESDate.msUntilDateTime target (clock env (calls s))) 0)
      as [Hpos | Hdue].
    + exact (IH _ _ H).
    + injection H as <-. exists (calls s). split; [reflexivity |].
      unfold ESDate.msUntilDateTime, ESDate.getTime in Hdue. lia.
Qed.

(** X17. The attempt never starts early by the script's own clock: with
    synchronisation enabled, whenever the wait for the open instant
    returns, the last thing it did was to read the clock, and that reading
    was at or past [openAt]. *)
Theorem wait_until_open_returns_at_open fuel openAt s s' :
  USE_WAIT_UNTIL_OPEN K = true ->
  wait_until_open env K fuel openAt s = (Ok tt, s') ->
  exists h, calls s' = h ++ [DateNow] /\ openAt <= clock env h.
Proof.
  intros Huse. unfold wait_until_open. rewrite Huse.
  unfold msUntil. unfold bind at 1. unfold bind at 1. unfold now, ret.
  destruct (Z.gtb_spec (ESDate.msUntilDateTime openAt (clock env (calls s))) 0)
    as [Hpos | Hdue].
  - unfold bind at 1. unfold print.
    unfold bind at 1.
    destruct (ESDate.msUntilDateTime openAt (clock env (calls s)) >? 400)%Z;
      unfold sleep, ret; intros H; exact (spin_Ok _ _ _ _ H).
  - intros H. injection H as <-. exists (calls s). split; [reflexivity |].
    unfold ESDate.msUntilDateTime, ESDate.getTime in Hdue. lia.
Qed.

Lemma spin_terminates h0 target :
  clock_ticks env h0 ->
  forall n fuel s hm,
    calls s = h0 ++ hm ->
    target - clock env (calls s) <= Z.of_nat n ->
    (n < fuel)%nat ->
    fst (spin env fuel target s) = Ok tt.
Proof.
  intros Htick.
  induction n as [| n IH]; intros fuel s hm Hs Hleft Hfuel;
    (destruct fuel as [| fuel]; [lia |]); rewrite spin_unfold;
    unfold ESDate.msUntilDateTime, ESDate.getTime;
    destruct (Z.gtb_spec (target - clock env (calls s)) 0) as [Hpos | Hdue];
    try reflexivity.
  - lia.
  - apply (IH fuel (record DateNow s) (hm ++ [DateNow])).
    + unfold record. cbn [calls]. now rewrite Hs, <- app_assoc.
    + unfold record. cbn [calls]. specialize (Htick hm).
      rewrite Hs, <- app_assoc. rewrite Hs in Hleft. lia.
    + lia.
Qed.

(** X18. The wait for the open instant ends: under a clock that never
    runs backwards and on which every reading takes at least a
    millisecond, it returns normally as soon as the fuel exceeds the
    milliseconds left until [openAt]. *)
Theorem wait_until_open_terminates fuel openAt s :
  clock_ticks env (calls s) ->
  clock_advances env (calls s) ->
  (Z.to_nat (openAt - clock env (calls s)) < fuel)%nat ->
  fst (wait_until_open env K fuel openAt s) = Ok tt.
Proof.
  intros Htick Hadv Hfuel. unfold wait_until_open.
  destruct (USE_WAIT_UNTIL_OPEN K); [| reflexivity].
  unfold msUntil. unfold bind at 1. unfold bind at 1. unfold now, ret.
  unfold ESDate.msUntilDateTime, ESDate.getTime.
  set (ms := openAt - clock env (calls s)) in *.
  destruct (Z.gtb_spec ms 0) as [Hpos | Hdue]; [| reflexivity].
  unfold bind at 1. unfold print. unfold bind at 1.
  pose proof (Htick []) as H1. rewrite app_nil_r in H1. cbn [app] in H1.
  destruct (ms >? 400)%Z; unfold sleep, ret, record; cbn [calls console].
  - pose proof (Hadv [DateNow] (SetTimeout (ms - 200))) as H2.
    cbn [min_duration] in H2.
    apply (spin_terminates (calls s) openAt Htick (Z.to_nat ms) fuel _
             [DateNow; SetTimeout (ms - 200)]).
    + cbn [calls]. now rewrite <- app_assoc.
    + cbn [calls]. rewrite <- app_assoc. cbn [app] in *. lia.
    + exact Hfuel.
  - apply (spin_terminates (calls s) openAt Htick (Z.to_nat ms) fuel _
             [DateNow]).
    + reflexivity.
    + cbn [calls]. lia.
    + exact Hfuel.
Qed.

(** X19. Missing credentials fail fast: when [EMAIL] or [PASSWORD] is
    absent or empty, the script ends with exit code 1 having read the
    clock once and called nothing else (no browser is launched), and the
    only line on the console is the error that names both variables. *)
Theorem missing_credentials_fail_fast fuel s :
  truthy (EMAIL env K) = false \/ truthy (PASSWORD env K) = false ->
  main env K fuel s
  = (Some 1,
     {| calls := calls s ++ [DateNow];
        console := console s
          ++ [LogError "Error:"
                (ErrArg (Error ("Missing " ++ ENV_EMAIL K ++ " or "
                                ++ ENV_PASSWORD K
                                ++ " environment variables.")%string))] |}).
Proof.
  intros Hmiss.
  assert (Hcond : negb (truthy (EMAIL env K)) || negb (truthy (PASSWORD env K))
                  = true).
  { destruct Hmiss as [-> | ->]; [reflexivity | apply orb_true_r]. }
  unfold main, session_window.
  unfold bind at 1. unfold bind at 1. unfold now, ret.
  unfold run, run_pre. cbn [fst snd].
  unfold bind at 1. unfold bind at 1.
  rewrite Hcond. reflexivity.
Qed.

(** X20. The browser is closed on every exit: once the steps before the
    [try] have succeeded (the browser is launched), however [run] ends,
    normally or with an error, the last call it makes is
    [browser.close()]. *)
Theorem browser_closed_on_every_exit fuel classDate openAt s url sB r s' :
  run_pre env K classDate openAt s = (Ok url, sB) ->
  run env K fuel classDate openAt s = (r, s') ->
  r <> Running ->
  exists h, calls s' = h ++ [BrowserClose].
Proof.
  intros Hpre Hrun Hend. unfold run in Hrun.
  rewrite (bind_Ok _ _ _ _ _ Hpre) in Hrun.
  unfold try_finally in Hrun.
  destruct (bind (run_enter env K fuel openAt url) (fun _ => run_reserve env K fuel) sB)
    as [[[] | e |] sb];
    unfold do, record in Hrun;
    try (destruct (settle env (calls sb) BrowserClose));
    injection Hrun as <- <-; try (exists (calls sb); reflexivity);
    contradiction.
Qed.

Lemma bind_assoc {A B C : Type} (m : M A) (f : A -> M B) (g : B -> M C) s :
  bind (bind m f) g s = bind m (fun a => bind (f a) g) s.
Proof. unfold bind. destruct (m s) as [[a | e |] s']; reflexivity. Qed.

Lemma bind_ext {A B : Type} (m : M A) (k k' : A -> M B) s :
  (forall a s', k a s' = k' a s') -> bind m k s = bind m k' s.
Proof.
  intros H. unfold bind. destruct (m s) as [[a | e |] s']; [apply H | |];
    reflexivity.
Qed.

(** The [try] block before the attempt is its three stages in sequence. *)
Lemma run_enter_stages fuel openAt scheduleUrl s :
  run_enter env K fuel openAt scheduleUrl s
  = bind (open_schedule env K scheduleUrl)
      (fun _ => bind (pick_card env K)
                  (fun i => enter_details env K fuel openAt i)) s.
Proof.
  unfold run_enter, open_schedule.
  do 9 (rewrite bind_assoc; apply bind_ext; intros ? ?).
  apply bind_ext; intros _ s1.
  unfold pick_card.
  do 3 (rewrite bind_assoc; apply bind_ext; intros ? ?).
  rewrite bind_assoc. apply bind_ext. intros targetCard s2.
  destruct targetCard as [i |]; reflexivity.
Qed.

(** X21. Fewer than seven day columns is a fatal error found at once:
    when the schedule page is open and the count of day columns is below
    7, the [try] block throws "Could not find 7 day columns." right after
    that count, before any card is counted, read or clicked. *)
Theorem too_few_day_columns fuel openAt scheduleUrl s s1 n :
  open_schedule env K scheduleUrl s = (Ok tt, s1) ->
  answer_num env (calls s1) (LocCount days) = inr n ->
  n < 7 ->
  run_enter env K fuel openAt scheduleUrl s
  = (Throw (Error "Could not find 7 day columns."),
     {| calls := calls s1 ++ [LocCount days]; console := console s1 |}).
Proof.
  intros Hopen Hn Hlt.
  rewrite run_enter_stages, (bind_Ok _ _ _ _ _ Hopen).
  unfold pick_card, bind, ask_num, of_sum. rewrite Hn.
  destruct (Z.ltb_spec n 7); [reflexivity | lia].
Qed.

(** X22. No matching card is a fatal error: when the schedule page is
    open with at least seven day columns and none of the [cardCount] cards
    of the target column matches [MUST_INCLUDE] (none at all when the
    column is empty), the [try] block throws "Could not find matching
    class card." after the two counts and one read per card, without
    clicking anything. *)
Theorem no_matching_card fuel openAt scheduleUrl s s1 n cardCount
        (text_of : Z -> string) :
  open_schedule env K scheduleUrl s = (Ok tt, s1) ->
  answer_num env (calls s1) (LocCount days) = inr n ->
  7 <= n ->
  answer_num env (calls s1 ++ [LocCount days]) (LocCount (cards K))
  = inr cardCount ->
  (forall h k,
     answer_text env (calls s1 ++ [LocCount days; LocCount (cards K)] ++ h)
       (LocInnerText (Nth (cards K) k)) = inr (text_of k)) ->
  (forall k, 0 <= k < cardCount ->
             cardMatches (text_of k) (MUST_INCLUDE K) = false) ->
  run_enter env K fuel openAt scheduleUrl s
  = (Throw (Error "Could not find matching class card."),
     {| calls := calls s1 ++ [LocCount days; LocCount (cards K)]
                 ++ card_reads K 0 (Z.to_nat cardCount);
        console := console s1 |}).
Proof.
  intros Hopen Hn Hge Hc Hpage Hnone.
  rewrite run_enter_stages, (bind_Ok _ _ _ _ _ Hopen).
  unfold pick_card.
  unfold bind at 1. unfold bind at 1. unfold ask_num at 1, of_sum. rewrite Hn.
  unfold bind at 1.
  destruct (Z.ltb_spec n 7); [lia |]. unfold ret at 1.
  unfold bind at 1. unfold bind at 1. unfold ask_num, of_sum, record.
  cbn [calls console]. rewrite Hc.
  pose proof (find_card_scan text_of (Z.to_nat cardCount) 0
                {| calls := (calls s1 ++ [LocCount days])
                            ++ [LocCount (cards K)];
                   console := console s1 |}) as Hscan.
  cbn [calls console] in Hscan.
  destruct (find_card env K (Z.to_nat cardCount) 0
              {| calls := (calls s1 ++ [LocCount days]) ++ [LocCount (cards K)];
                 console := console s1 |}) as [[[j |] | e |] s2].
  - exfalso.
    destruct Hscan as (m & Hm & Hj & Hmatch & _).
    { intros h k. rewrite <- !app_assoc. apply Hpage. }
    rewrite Hnone in Hmatch by lia. discriminate.
  - destruct Hscan as (_ & Hcalls & Hcons).
    { intros h k. rewrite <- !app_assoc. apply Hpage. }
    unfold throw. do 2 f_equal.
    destruct s2 as [c2 o2]. cbn [calls console] in *. subst.
    now rewrite <- !app_assoc.
  - exfalso. apply Hscan. intros h k. rewrite <- !app_assoc. apply Hpage.
  - exfalso. apply Hscan. intros h k. rewrite <- !app_assoc. apply Hpage.
Qed.

End FlowMore.

(* ================================================================== *)
(** ** The further properties on the concrete surfaces *)
(* ================================================================== *)

Lemma reaches_at_attempt e fuel :
  fst (Flow.bind (Flow.session_window e Demo.K0)
         (fun sw => Flow.bind (Flow.run_pre e Demo.K0 (fst sw) (snd sw))
                      (fun url => Flow.run_enter e Demo.K0 fuel (snd sw) url))
         Flow.initial) = Flow.Ok tt ->
  Flow.reaches_attempt e Demo.K0 fuel Flow.initial (Demo.at_attempt e fuel).
Proof.
  unfold Flow.reaches_attempt, Demo.at_attempt. intros H.
  rewrite <- H. apply surjective_pairing.
Qed.

Lemma surface_clock_ticks w h0 : Rest.clock_ticks (Demo.surface w) h0.
Proof.
  intros h. cbn [Flow.clock Demo.surface].
  rewrite !elapsed_app. cbn [Demo.elapsed fold_right Demo.cost]. lia.
Qed.

(** X12 on the demonstration surface: of the two cards of the column, the
    second is the first to match. *)
Lemma find_card_first_match_witness :
  fst (Flow.find_card (Demo.surface None) Demo.K0 2 0 Flow.initial)
  = Flow.Ok (Some 1).
Proof.
  pose proof (find_card_first_match (Demo.surface None) Demo.K0
                (fun k => if k =? 1
                          then "8:00 - 10:00 PM Pickleball Open Play: All Levels"%string
                          else "6:00 - 8:00 AM Pickleball Open Play: Beginner"%string)
                2 0 Flow.initial
                (fun h k => match k with
                            | Zpos xH => eq_refl
                            | Zpos (xO _) => eq_refl
                            | Zpos (xI _) => eq_refl
                            | Z0 => eq_refl
                            | Zneg _ => eq_refl
                            end)) as H.
  destruct (Flow.find_card (Demo.surface None) Demo.K0 2 0 Flow.initial)
    as [[[j |] | e |] s'].
  - destruct H as (m & Hm & Hj & Hmatch & _). cbn [fst]. do 2 f_equal.
    destruct m as [| [| m]].
    + subst j. vm_compute in Hmatch. discriminate.
    + subst j. reflexivity.
    + lia.
  - destruct H as (Hnone & _). specialize (Hnone 1%nat ltac:(lia)).
    vm_compute in Hnone. discriminate.
  - contradiction.
  - contradiction.
Defined.

(** X13 on the demonstration surface. *)
Lemma dismissCookieBanner_never_throws_witness :
  fst (Flow.dismissCookieBanner (Demo.surface None) Flow.initial) = Flow.Ok tt.
Proof.
  exact (proj1 (dismissCookieBanner_never_throws (Demo.surface None)
                  Flow.initial)).
Defined.

(** X14 on the surface that shows the reserve and the Finish control. *)
Lemma reserve_on_first_poll_witness :
  fst (Flow.clickReserveAndFinish (Rest.open_surface true) Demo.K0 5
         Flow.initial) = Flow.Ok tt.
Proof.
  rewrite (reserve_on_first_poll (Rest.open_surface true) Demo.K0 4
             Flow.initial ltac:(vm_compute; reflexivity)
             eq_refl eq_refl eq_refl eq_refl).
  reflexivity.
Defined.

(** X15 on the surface that shows the reserve control and never the Finish
    control. *)
Lemma finish_timeout_is_fatal_witness :
  fst (Flow.main (Rest.open_surface false) Demo.K0 300 Flow.initial) = Some 1.
Proof.
  exact (proj2 (finish_timeout_is_fatal (Rest.open_surface false) Demo.K0 299
                  Flow.initial (Demo.at_attempt (Rest.open_surface false) 300)
                  (Text.SurfaceError 408)
                  (reaches_at_attempt (Rest.open_surface false) 300
                     ltac:(vm_compute; reflexivity))
                  ltac:(vm_compute; reflexivity)
                  eq_refl eq_refl eq_refl)).
Defined.

(** X16 on the surface that shows the waitlist indicator after two
    reloads. *)
Lemma no_action_without_reserve_witness :
  exists h,
    Flow.calls (snd (Flow.clickReserveAndFinish (Demo.surface (Some 2%nat))
                       Demo.K0 10 Flow.initial))
    = Flow.calls Flow.initial ++ h /\
    forallb (fun c => negb (Rest.is_action c)) h = true.
Proof.
  exact (no_action_without_reserve (Demo.surface (Some 2%nat)) Demo.K0 10
           Flow.initial (surface_no_reserve (Some 2%nat) _)).
Defined.

(** X17 with the open instant one second ahead. *)
Lemma wait_until_open_returns_at_open_witness :
  exists h,
    Flow.calls (snd (Flow.wait_until_open (Demo.surface None) Demo.K0 300
                       (Demo.t0 + 1000) Flow.initial))
    = h ++ [Flow.DateNow] /\
    Demo.t0 + 1000 <= Flow.clock (Demo.surface None) h.
Proof.
  apply (wait_until_open_returns_at_open (Demo.surface None) Demo.K0 300
           (Demo.t0 + 1000) Flow.initial).
  - reflexivity.
  - vm_compute. reflexivity.
Defined.

(** X18 with the open instant one second ahead. *)
Lemma wait_until_open_terminates_witness :
  fst (Flow.wait_until_open (Demo.surface None) Demo.K0 1001 (Demo.t0 + 1000)
         Flow.initial) = Flow.Ok tt.
Proof.
  apply (wait_until_open_terminates (Demo.surface None) Demo.K0 1001
           (Demo.t0 + 1000) Flow.initial).
  - apply surface_clock_ticks.
  - apply surface_clock_advances.
  - apply Nat.ltb_lt. vm_compute. reflexivity.
Defined.

(** X19 on the surface without credentials. *)
Lemma missing_credentials_fail_fast_witness :
  fst (Flow.main Rest.no_credentials Demo.K0 5 Flow.initial) = Some 1.
Proof.
  rewrite (missing_credentials_fail_fast Rest.no_credentials Demo.K0 5
             Flow.initial (or_introl eq_refl)).
  reflexivity.
Defined.

(** X20 on the surface that shows the waitlist indicator at once, for the
    window of Monday 2026-03-02. *)
Lemma browser_closed_on_every_exit_witness :
  exists h,
    Flow.calls (snd (Flow.run (Demo.surface (Some 0%nat)) Demo.K0 300
                       1772499510000 1771808400000 Flow.initial))
    = h ++ [Flow.BrowserClose].
Proof.
  apply (browser_closed_on_every_exit (Demo.surface (Some 0%nat)) Demo.K0 300
           1772499510000 1771808400000 Flow.initial
           (match fst (Flow.run_pre (Demo.surface (Some 0%nat)) Demo.K0
                         1772499510000 1771808400000 Flow.initial) with
            | Flow.Ok url => url
            | _ => EmptyString
            end)
           (snd (Flow.run_pre (Demo.surface (Some 0%nat)) Demo.K0
                   1772499510000 1771808400000 Flow.initial))
           (fst (Flow.run (Demo.surface (Some 0%nat)) Demo.K0 300
                   1772499510000 1771808400000 Flow.initial))).
  - vm_compute. reflexivity.
  - apply surjective_pairing.
  - vm_compute. discriminate.
Defined.

Lemma Ok_pairing {A : Type} (p : Flow.Res A * Flow.State) a :
  fst p = Flow.Ok a -> p = (Flow.Ok a, snd p).
Proof. destruct p as [r s]. cbn. now intros ->. Qed.

(** X21 on the page with five day columns. *)
Lemma too_few_day_columns_witness :
  fst (Flow.run_enter Rest.few_columns Demo.K0 10 1771808400000
         "https://my.lifetime.life/clubs/va/fairfax/classes.html?mode=week"
         Flow.initial)
  = Flow.Throw (Text.Error "Could not find 7 day columns.").
Proof.
  pose (p := Rest.open_schedule Rest.few_columns Demo.K0
               "https://my.lifetime.life/clubs/va/fairfax/classes.html?mode=week"
               Flow.initial).
  assert (Hopen : p = (Flow.Ok tt, snd p))
    by (apply Ok_pairing; vm_compute; reflexivity).
  rewrite (too_few_day_columns Rest.few_columns Demo.K0 10 1771808400000
             "https://my.lifetime.life/clubs/va/fairfax/classes.html?mode=week"
             Flow.initial (snd p) 5 Hopen eq_refl ltac:(lia)).
  reflexivity.
Defined.

(** X22 on the demonstration surface, looking for a tennis class. *)
Lemma no_matching_card_witness :
  fst (Flow.run_enter (Demo.surface None) Rest.K_tennis 10 1771808400000
         "https://my.lifetime.life/clubs/va/fairfax/classes.html?mode=week"
         Flow.initial)
  = Flow.Throw (Text.Error "Could not find matching class card.").
Proof.
  pose (p := Rest.open_schedule (Demo.surface None) Rest.K_tennis
               "https://my.lifetime.life/clubs/va/fairfax/classes.html?mode=week"
               Flow.initial).
  assert (Hopen : p = (Flow.Ok tt, snd p))
    by (apply Ok_pairing; vm_compute; reflexivity).
  rewrite (no_matching_card (Demo.surface None) Rest.K_tennis 10 1771808400000
             "https://my.lifetime.life/clubs/va/fairfax/classes.html?mode=week"
             Flow.initial (snd p) 7 2
             (fun k => if k =? 1
                       then "8:00 - 10:00 PM Pickleball Open Play: All Levels"%string
                       else "6:00 - 8:00 AM Pickleball Open Play: Beginner"%string)
             Hopen eq_refl ltac:(lia) eq_refl
             (fun h k => match k with
                         | Zpos xH => eq_refl
                         | Zpos (xO _) => eq_refl
                         | Zpos (xI _) => eq_refl
                         | Z0 => eq_refl
                         | Zneg _ => eq_refl
                         end)).
  - reflexivity.
  - intros k Hk. assert (Hcases : k = 0 \/ k = 1) by lia.
    destruct Hcases as [-> | ->]; reflexivity.
Defined.

(* ================================================================== *)
(** ** Further properties: the format of the selected date *)
(* ================================================================== *)

Section DateFormat.

Import ESDate Text Rest.

Variable zone : Zone.

Lemma DaysInYear_diff y : DayFromYear (y + 1) - DayFromYear y = DaysInYear y.
Proof.
  unfold DayFromYear, DaysInYear.
  destruct (Z.eqb_spec (y mod 4) 0); cbn [negb];
    [destruct (Z.eqb_spec (y mod 100) 0); cbn [negb];
     [destruct (Z.eqb_spec (y mod 400) 0); cbn [negb] | ] | ];
    Z.div_mod_to_equations; lia.
Qed.

Lemma DaysInYear_cases y : DaysInYear y = 365 \/ DaysInYear y = 366.
Proof.
  unfold DaysInYear.
  repeat match goal with
         | |- context [if ?b then _ else _] => destruct b
         end; auto.
Qed.

Lemma DayWithinYear_range t :
  0 <= DayWithinYear t < DaysInYear (YearFromTime t).
Proof.
  pose proof (YearFromTime_spec t) as H.
  pose proof (DaysInYear_diff (YearFromTime t)) as Hd.
  unfold DayWithinYear. lia.
Qed.

Lemma DateFromTime_range t : 1 <= DateFromTime t <= 31.
Proof.
  pose proof (DayWithinYear_range t) as Hr.
  unfold DateFromTime, MonthFromTime, InLeapYear.
  destruct (DaysInYear_cases (YearFromTime t)) as [E | E]; rewrite E in *;
    cbn [Z.eqb Pos.eqb];
    generalize dependent (DayWithinYear t); intros d Hr;
    repeat match goal with
           | |- context [?a <? ?b] => destruct (Z.ltb_spec a b)
           end; cbn in *; lia.
Qed.

Lemma range_check (p : Z -> bool) a n :
  forallb p (map (fun k => a + Z.of_nat k) (seq 0 n)) = true ->
  forall k, a <= k < a + Z.of_nat n -> p k = true.
Proof.
  intros H k Hk. rewrite forallb_forall in H. apply H.
  apply in_map_iff. exists (Z.to_nat (k - a)). split; [lia |].
  apply in_seq. lia.
Qed.

Lemma year_four_digits y :
  1000 <= y <= 9999 -> digits_of_length 4 (stringOfZ y) = true.
Proof.
  intros Hy.
  apply (range_check (fun y => digits_of_length 4 (stringOfZ y)) 1000
           (Z.to_nat 9000));
    [vm_compute; reflexivity | lia].
Qed.

Lemma padStart2_two_digits k :
  0 <= k <= 99 -> digits_of_length 2 (padStart2 (stringOfZ k)) = true.
Proof.
  intros Hk.
  apply (range_check (fun k => digits_of_length 2 (padStart2 (stringOfZ k)))
           0 100); [vm_compute; reflexivity | lia].
Qed.

Lemma length_append a b :
  String.length (a ++ b) = (String.length a + String.length b)%nat.
Proof.
  induction a as [| c a IH]; cbn [append String.length plus];
    [reflexivity | now rewrite IH].
Qed.

(** X23. For a date whose local year has four digits, [toISODate] returns
    a string of the form YYYY-MM-DD: four digits, a hyphen, two digits, a
    hyphen, two digits, ten characters in all. (The year is not padded:
    outside 1000..9999 the string has another length.) *)
Theorem toISODate_format date :
  1000 <= getFullYear zone date <= 9999 ->
  exists y m d,
    toISODate zone date = (y ++ "-" ++ m ++ "-" ++ d)%string /\
    digits_of_length 4 y = true /\
    digits_of_length 2 m = true /\
    digits_of_length 2 d = true /\
    String.length (toISODate zone date) = 10%nat.
Proof.
  intros Hy.
  pose proof (MonthFromTime_range (LocalTime zone date)) as Hm.
  pose proof (DateFromTime_range (LocalTime zone date)) as Hd.
  assert (H4 : digits_of_length 4 (stringOfZ (getFullYear zone date)) = true)
    by (apply year_four_digits; exact Hy).
  assert (H2m : digits_of_length 2
                  (padStart2 (stringOfZ (getMonth zone date + 1))) = true)
    by (apply padStart2_two_digits; unfold getMonth; lia).
  assert (H2d : digits_of_length 2
                  (padStart2 (stringOfZ (getDate zone date))) = true)
    by (apply padStart2_two_digits; unfold getDate; lia).
  exists (stringOfZ (getFullYear zone date)),
         (padStart2 (stringOfZ (getMonth zone date + 1))),
         (padStart2 (stringOfZ (getDate zone date))).
  split; [reflexivity |].
  split; [exact H4 |]. split; [exact H2m |]. split; [exact H2d |].
  unfold toISODate. rewrite !length_append.
  unfold digits_of_length in H4, H2m, H2d.
  apply andb_true_iff in H4, H2m, H2d.
  destruct H4 as [H4 _], H2m as [H2m _], H2d as [H2d _].
  apply Nat.eqb_eq in H4, H2m, H2d.
  rewrite H4, H2m, H2d. reflexivity.
Qed.

End DateFormat.

(** X23 at Monday 2026-03-02 10:00 UTC. *)
Lemma toISODate_format_witness :
  String.length
    (Text.toISODate (ESDate.fixed 0)
       (20514 * ESDate.msPerDay + 10 * ESDate.msPerHour))
  = 10%nat.
Proof.
  destruct (toISODate_format (ESDate.fixed 0)
              (20514 * ESDate.msPerDay + 10 * ESDate.msPerHour)
              ltac:(vm_compute; split; discriminate))
    as (y & m & d & _ & _ & _ & _ & Hlen).
  exact Hlen.
Defined.
